(** * web3-helpers: a shallow embedding of [common/node.py] and
    [common/etherscan.py], and the properties of the specification checked
    against it.

    Python integers are unbounded and are modelled by [Z]; Python strings are
    modelled by [string] (byte strings, ASCII case conversion); the JSON and
    ABI-decoded values the helpers pass around untyped are modelled by the
    inductive [value].  The file system, the network and the console are an
    explicit world threaded through a small state-and-exception monad. *)

From Stdlib Require Import ZArith Lia List String Ascii Bool.
From stdpp Require Import base option list strings pretty gmap.

Import ListNotations.
Local Open Scope string_scope.

(** ** Keccak-256

    [toChecksumAddress] hashes the lower-case hexadecimal digits of the
    address with Keccak-256 (the original padding, not SHA-3's).  Lanes are
    64-bit words held in [Z]; the state is the list of the 25 lanes,
    lane [(x, y)] at position [x + 5 * y]. *)
Module Keccak.
Local Open Scope Z_scope.

Definition mask64 : Z := 0xFFFFFFFFFFFFFFFF.

Definition rotl64 (x n : Z) : Z :=
  Z.land (Z.lor (Z.shiftl x n) (Z.shiftr x (64 - n))) mask64.

Definition lane (st : list Z) (x y : nat) : Z :=
  nth ((x mod 5) + 5 * (y mod 5))%nat st 0.

Definition round_constants : list Z :=
  [ 0x0000000000000001; 0x0000000000008082; 0x800000000000808A;
    0x8000000080008000; 0x000000000000808B; 0x0000000080000001;
    0x8000000080008081; 0x8000000000008009; 0x000000000000008A;
    0x0000000000000088; 0x0000000080008009; 0x000000008000000A;
    0x000000008000808B; 0x800000000000008B; 0x8000000000008089;
    0x8000000000008003; 0x8000000000008002; 0x8000000000000080;
    0x000000000000800A; 0x800000008000000A; 0x8000000080008081;
    0x8000000000008080; 0x0000000080000001; 0x8000000080008008 ].

(** Rotation offsets, indexed like the state. *)
Definition rotation_offsets : list Z :=
  [  0;  1; 62; 28; 27;
    36; 44;  6; 55; 20;
     3; 10; 43; 25; 39;
    41; 45; 15; 21;  8;
    18;  2; 61; 56; 14 ].

Definition positions : list nat := seq 0 25.

Definition theta (st : list Z) : list Z :=
  let c x := Z.lxor (lane st x 0) (Z.lxor (lane st x 1) (Z.lxor (lane st x 2)
              (Z.lxor (lane st x 3) (lane st x 4)))) in
  let d x := Z.lxor (c (x + 4)%nat) (rotl64 (c (x + 1)%nat) 1) in
  map (fun i => Z.lxor (lane st (i mod 5) (i / 5)) (d (i mod 5)%nat)) positions.

Definition rho_pi (st : list Z) : list Z :=
  map (fun i =>
         let X := (i mod 5)%nat in
         let Y := (i / 5)%nat in
         let x := ((X + 3 * Y) mod 5)%nat in
         rotl64 (lane st x X) (nth (x + 5 * X)%nat rotation_offsets 0))
      positions.

Definition chi (st : list Z) : list Z :=
  map (fun i =>
         let x := (i mod 5)%nat in
         let y := (i / 5)%nat in
         Z.lxor (lane st x y)
                (Z.land (Z.lxor (lane st (x + 1) y) mask64) (lane st (x + 2) y)))
      positions.

Definition iota (rc : Z) (st : list Z) : list Z :=
  match st with
  | [] => []
  | a :: rest => Z.lxor a rc :: rest
  end.

Definition keccak_round (st : list Z) (rc : Z) : list Z :=
  iota rc (chi (rho_pi (theta st))).

Definition keccak_f (st : list Z) : list Z :=
  fold_left keccak_round round_constants st.

(** Rate of Keccak-256 in bytes. *)
Definition rate : nat := 136.

Definition pad (msg : list Z) : list Z :=
  let q := (rate - (List.length msg mod rate))%nat in
  match q with
  | 1%nat => msg ++ [0x81]
  | _ => msg ++ [0x01] ++ repeat 0 (q - 2) ++ [0x80]
  end.

(** Little-endian word of up to eight bytes. *)
Fixpoint le_word (bs : list Z) : Z :=
  match bs with
  | [] => 0
  | b :: rest => Z.lor b (Z.shiftl (le_word rest) 8)
  end.

Fixpoint lanes_of (n : nat) (bs : list Z) : list Z :=
  match n with
  | O => []
  | S n' => le_word (firstn 8 bs) :: lanes_of n' (skipn 8 bs)
  end.

Fixpoint xor_lanes (st blk : list Z) : list Z :=
  match st, blk with
  | a :: st', b :: blk' => Z.lxor a b :: xor_lanes st' blk'
  | _, _ => st
  end.

Fixpoint absorb (fuel : nat) (st : list Z) (bs : list Z) : list Z :=
  match fuel with
  | O => st
  | S fuel' =>
      match bs with
      | [] => st
      | _ => absorb fuel'
               (keccak_f (xor_lanes st (lanes_of 17 (firstn rate bs))))
               (skipn rate bs)
      end
  end.

Fixpoint le_bytes (n : nat) (w : Z) : list Z :=
  match n with
  | O => []
  | S n' => Z.land w 0xFF :: le_bytes n' (Z.shiftr w 8)
  end.

Definition keccak256 (msg : list Z) : list Z :=
  let padded := pad msg in
  let st := absorb (List.length padded) (repeat 0 25) padded in
  flat_map (le_bytes 8) (firstn 4 st).

End Keccak.

Definition bytes_of_string (s : string) : list Z :=
  map (fun c => Z.of_N (N_of_ascii c)) (list_ascii_of_string s).

Definition hex_digit (n : Z) : ascii :=
  nth (Z.to_nat n) (list_ascii_of_string "0123456789abcdef") "0"%char.

(** [encode_hex]: the bytes as lower-case hexadecimal text with the [0x]
    prefix. *)
Definition encode_hex (bs : list Z) : string :=
  "0x" ++ string_of_list_ascii
            (flat_map (fun b => [hex_digit (Z.shiftr b 4); hex_digit (Z.land b 15)]) bs).

Definition keccak_text (s : string) : string :=
  encode_hex (Keccak.keccak256 (bytes_of_string s)).


(** ** Text helpers (Python [str] methods on ASCII text) *)

Definition ascii_lower (c : ascii) : ascii :=
  let n := nat_of_ascii c in
  if (65 <=? n)%nat && (n <=? 90)%nat then ascii_of_nat (n + 32) else c.

Definition ascii_upper (c : ascii) : ascii :=
  let n := nat_of_ascii c in
  if (97 <=? n)%nat && (n <=? 122)%nat then ascii_of_nat (n - 32) else c.

Fixpoint lower (s : string) : string :=
  match s with
  | EmptyString => EmptyString
  | String c r => String (ascii_lower c) (lower r)
  end.

Fixpoint upper (s : string) : string :=
  match s with
  | EmptyString => EmptyString
  | String c r => String (ascii_upper c) (upper r)
  end.

(** [s[n:]] *)
Fixpoint str_drop (n : nat) (s : string) : string :=
  match n, s with
  | O, _ => s
  | S n', String _ r => str_drop n' r
  | S _, EmptyString => EmptyString
  end.

(** [s.startswith(p)] *)
Fixpoint startswith (p s : string) : bool :=
  match p with
  | EmptyString => true
  | String a p' =>
      match s with
      | String b s' => Ascii.eqb a b && startswith p' s'
      | EmptyString => false
      end
  end.

Definition is_empty (s : string) : bool :=
  match s with EmptyString => true | _ => false end.

(** [int(c, 16)] for one character; [None] when [c] is no hexadecimal digit. *)
Definition hex_value (c : ascii) : option nat :=
  let n := nat_of_ascii c in
  if (48 <=? n)%nat && (n <=? 57)%nat then Some (n - 48)%nat
  else if (97 <=? n)%nat && (n <=? 102)%nat then Some (n - 87)%nat
  else if (65 <=? n)%nat && (n <=? 70)%nat then Some (n - 55)%nat
  else None.

Definition is_hexdigit (c : ascii) : bool :=
  match hex_value c with Some _ => true | None => false end.

Fixpoint all_hex (s : string) : bool :=
  match s with
  | EmptyString => true
  | String c r => is_hexdigit c && all_hex r
  end.

(** ** Addresses: the [eth_utils] functions behind [Web3.toChecksumAddress]

    [checksum_address] of [node.py] delegates to the client's
    [toChecksumAddress], which is [eth_utils.to_checksum_address] (EIP-55).
    The functions below follow that library, restricted to text input. *)

Inductive exn :=
| KeyError (key : string)
| ValueError
| TypeError
| AttributeError
| FileNotFoundError (path : string)
| PlainException (msg : string)
| ExternalError (msg : string).

Inductive result (A : Type) :=
| Ok (a : A)
| Raise (e : exn).
Arguments Ok {A} a.
Arguments Raise {A} e.

Definition is_0x_prefixed (s : string) : bool :=
  startswith "0x" s || startswith "0X" s.

Definition remove_0x_prefix (s : string) : string :=
  if is_0x_prefixed s then str_drop 2 s else s.

Definition add_0x_prefix (s : string) : string :=
  if is_0x_prefixed s then s else "0x" ++ s.

(** [is_hex]: non-empty and a full match of [(0x)?[0-9a-f]*], ignoring case.
    As [x] is no digit, the optional prefix is taken exactly when present. *)
Definition is_hex (s : string) : bool :=
  negb (is_empty s) && all_hex (remove_0x_prefix s).

(** [to_hex(hexstr=s)] *)
Definition to_hex (s : string) : string := add_0x_prefix (lower s).

(** [hexstr_if_str(to_hex, value)] *)
Definition hexstr_if_str_to_hex (value : string) : result string :=
  if negb (is_empty (remove_0x_prefix value)) && negb (is_hex value)
  then Raise ValueError
  else Ok (to_hex value).

Definition is_hex_address (s : string) : bool :=
  is_hex s && (String.length (remove_0x_prefix s) =? 40)%nat.

Definition is_checksum_formatted_address (s : string) : bool :=
  is_hex_address s
  && negb (String.eqb (remove_0x_prefix s) (lower (remove_0x_prefix s)))
  && negb (String.eqb (remove_0x_prefix s) (upper (remove_0x_prefix s))).

(** [is_address] on text; [is_checksum] stands for [is_checksum_address],
    which is defined from [to_checksum_address] below. *)
Definition is_address_with (is_checksum : string -> bool) (s : string) : bool :=
  if is_checksum_formatted_address s then is_checksum s else is_hex_address s.

Definition to_normalized_address_with (is_checksum : string -> bool)
    (value : string) : result string :=
  match hexstr_if_str_to_hex value with
  | Raise e => Raise e
  | Ok h =>
      let hex_address := lower h in
      if is_address_with is_checksum hex_address then Ok hex_address
      else Raise ValueError
  end.

(** The characters [norm[i].upper() if int(hash[i], 16) > 7 else norm[i]],
    walking both texts in step. *)
Fixpoint checksum_digits (n : nat) (norm hash : string) : string :=
  match n, norm, hash with
  | S n', String c norm', String h hash' =>
      String (match hex_value h with
              | Some v => if (7 <? v)%nat then ascii_upper c else c
              | None => c
              end)
             (checksum_digits n' norm' hash')
  | _, _, _ => EmptyString
  end.

Definition to_checksum_address_with (is_checksum : string -> bool)
    (value : string) : result string :=
  match to_normalized_address_with is_checksum value with
  | Raise e => Raise e
  | Ok norm_address =>
      let address_hash := keccak_text (remove_0x_prefix norm_address) in
      Ok (add_0x_prefix
            (checksum_digits 40 (str_drop 2 norm_address) (str_drop 2 address_hash)))
  end.

(** [is_address] is only ever applied to lower-case text inside
    [to_normalized_address], where the checksum-formatted branch cannot be
    taken; the recursion of the library through [is_checksum_address] is cut
    there (see [to_normalized_address_knot]). *)
Definition to_normalized_address : string -> result string :=
  to_normalized_address_with (fun _ => false).

Definition to_checksum_address : string -> result string :=
  to_checksum_address_with (fun _ => false).

Definition is_checksum_address (s : string) : bool :=
  is_hex_address s &&
  match to_checksum_address s with
  | Ok c => String.eqb s c
  | Raise _ => false
  end.

(** ** Values

    JSON documents (contract metadata, ABIs) and the untyped values the
    helpers hand to the client library. *)

#[warnings="-register-all"]
Inductive value :=
| VNone
| VBool (b : bool)
| VInt (n : Z)
| VStr (s : string)
| VList (l : list value)
| VDict (d : list (string * value)).

(** A Python [dict] with text keys, in insertion order. *)
Definition dict : Type := list (string * value).

Fixpoint dict_get (d : dict) (k : string) : option value :=
  match d with
  | [] => None
  | (k', v) :: r => if String.eqb k' k then Some v else dict_get r k
  end.

(** [d[k] = v]: an existing key keeps its position, a new one goes last. *)
Fixpoint dict_set (d : dict) (k : string) (v : value) : dict :=
  match d with
  | [] => [(k, v)]
  | (k', v') :: r =>
      if String.eqb k' k then (k', v) :: r else (k', v') :: dict_set r k v
  end.

(** [{**d, **e}] *)
Definition dict_update (d e : dict) : dict :=
  fold_left (fun acc kv => dict_set acc (fst kv) (snd kv)) e d.

(** Python truthiness. *)
Definition truthy (v : value) : bool :=
  match v with
  | VNone => false
  | VBool b => b
  | VInt n => negb (n =? 0)%Z
  | VStr s => negb (is_empty s)
  | VList l => match l with [] => false | _ => true end
  | VDict d => match d with [] => false | _ => true end
  end.

(** [v.get(k)]: only a [dict] has the method. *)
Definition py_get (v : value) (k : string) : result value :=
  match v with
  | VDict d => Ok (match dict_get d k with Some x => x | None => VNone end)
  | _ => Raise AttributeError
  end.

(** ** The world *)

(** A [Web3] client: the chain whose endpoint it was built for, and the
    transport. *)
Record client := { client_chain : string; client_websocket : bool }.

(** A bound contract: [client.eth.contract(address=..., abi=...)]. *)
Record contract :=
  { contract_client : client; contract_address : string; contract_abi : value }.

Record transaction := { tx_to : option string; tx_input : string }.

(** The arguments [get_events] passes to [construct_event_filter_params]. *)
Record filter_request :=
  { fr_event_abi : value;
    fr_address : option value;
    fr_argument_filters : dict;
    fr_fromBlock : Z;
    fr_toBlock : value }.

(** Requests sent over the network: to the block explorer and to a node.
    A request is recorded when the helper hands it to the client library,
    also when the library then refuses to send it. *)
Inductive net_call :=
| ExplorerGetAbi (chain address : string)
| EthGetTransaction (c : client) (hash : string)
| EthBlockNumber (c : client)
| EthGetLogs (c : client) (params : value)
| EthBalanceOf (k : contract) (owner : string)
| EthBalanceOfBatch (k : contract) (owners : list string) (ids : list Z).

(** A printed line: literal text and formatted values. *)
Inductive fragment :=
| Text (s : string)
| Shown (v : value)
| ShownExn (e : exn).

Record world :=
  { files : gmap string string;
    calls : list net_call;
    stdout : list (list fragment) }.

(** What lies outside the program: the working directory, the answers of the
    explorer and of the nodes, and the functions of the client library that
    the helpers call. *)
Record environment :=
  { (* [os.getcwd()] when the module is loaded *)
    cwd : string;
    (* whether [open(path, "x")] can create the file *)
    can_create : string -> bool;
    (* the parsed content of [curated.json], in key order, or the exception
       raised while reading it *)
    curated_json : result (list (string * value));
    (* [requests.get(url, data=params).json().get('result')] for a chain and
       an address *)
    explorer_result : string -> string -> result value;
    (* [json.loads] on text *)
    json_loads : string -> result value;
    (* [client.eth.get_transaction(HexBytes(hash))] *)
    node_get_transaction : client -> string -> result transaction;
    (* [client.eth.block_number] *)
    node_block_number : client -> result Z;
    (* [client.eth.get_logs(params)] *)
    node_get_logs : client -> value -> result (list value);
    (* [contract.functions.balanceOf(owner).call()] *)
    node_balanceOf : contract -> string -> result Z;
    (* [contract.functions.balanceOfBatch(owners, ids).call()] *)
    node_balanceOfBatch : contract -> list string -> list Z -> result (list Z);
    (* [find_matching_event_abi(abi, event_name)] *)
    find_matching_event_abi : value -> string -> result value;
    (* [construct_event_filter_params(...)]: the data filter set and the
       filter parameters *)
    construct_event_filter_params : filter_request -> result (value * value);
    (* [get_event_data(codec, event_abi, log)] *)
    get_event_data : value -> value -> result value;
    (* [contract.decode_function_input(input)] *)
    decode_function_input : contract -> string -> result (value * value) }.

(** ** State and exceptions *)

(** A program takes the world and returns a value or the exception it
    raised, with the world it left behind. *)
Definition M (A : Type) : Type := world -> result A * world.

Definition ret {A} (a : A) : M A := fun w => (Ok a, w).

Definition bind {A B} (m : M A) (f : A -> M B) : M B :=
  fun w =>
    match m w with
    | (Ok a, w') => f a w'
    | (Raise e, w') => (Raise e, w')
    end.

Definition raise {A} (e : exn) : M A := fun w => (Raise e, w).

Definition lift {A} (r : result A) : M A := fun w => (r, w).

(** [try: m  except Exception as e: h e] *)
Definition try_except {A} (m : M A) (h : exn -> M A) : M A :=
  fun w =>
    match m w with
    | (Ok a, w') => (Ok a, w')
    | (Raise e, w') => h e w'
    end.

Declare Scope prog_scope.
Delimit Scope prog_scope with prog.
Notation "x <- m ;; k" := (bind m (fun x => k))
  (at level 100, m at next level, right associativity) : prog_scope.
Notation "m ;;; k" := (bind m (fun _ => k))
  (at level 100, right associativity) : prog_scope.
Local Open Scope prog_scope.

Definition send (c : net_call) : M unit :=
  fun w => (Ok tt, {| files := files w; calls := calls w ++ [c]; stdout := stdout w |}).

Definition print (l : list fragment) : M unit :=
  fun w => (Ok tt, {| files := files w; calls := calls w; stdout := stdout w ++ [l] |}).

Definition isfile (path : string) : M bool :=
  fun w => (Ok (match files w !! path with Some _ => true | None => false end), w).

(** [open(path, "r").read()] *)
Definition read_file (path : string) : M string :=
  fun w =>
    match files w !! path with
    | Some text => (Ok text, w)
    | None => (Raise (FileNotFoundError path), w)
    end.

Definition write_file (path text : string) : M unit :=
  fun w => (Ok tt, {| files := <[path := text]> (files w);
                      calls := calls w; stdout := stdout w |}).

(** [os.path.join a b] *)
Definition path_join (a b : string) : string :=
  if startswith "/" b then b
  else if is_empty a || String.eqb (str_drop (String.length a - 1) a) "/" then a ++ b
  else a ++ "/" ++ b.

Fixpoint mapM {A B} (f : A -> M B) (l : list A) : M (list B) :=
  match l with
  | [] => ret []
  | a :: r => b <- f a ;; bs <- mapM f r ;; ret (b :: bs)
  end.

(** ** [common/etherscan.py] and [common/node.py] *)

Section Node.

Variable env : environment.

(** [CHAINS], [CHAIN_ENDPOINTS] and [CHAIN_WEBSOCKET_ENDPOINTS] have the
    same two keys; indexing with another chain raises [KeyError]. *)
Definition known_chain (chain : string) : bool :=
  String.eqb chain "eth" || String.eqb chain "polygon".

Definition CONTRACTS_STORAGE_PATH : string :=
  path_join (path_join (cwd env) "data") "contracts".

Definition fetch_curated_contracts : M (list (string * value)) :=
  lift (curated_json env).

Definition web3_client (chain provider : string) : result client :=
  if negb (is_empty provider) && String.eqb provider "websocket" then
    if known_chain chain
    then Ok {| client_chain := chain; client_websocket := true |}
    else Raise (KeyError chain)
  else
    if known_chain chain
    then Ok {| client_chain := chain; client_websocket := false |}
    else Raise (KeyError chain).

Definition checksum_address (address chain : string) : result string :=
  match web3_client chain "http" with
  | Ok _ => to_checksum_address address
  | Raise e => Raise e
  end.

(** [etherscan.get_contract_abi] *)
Definition get_contract_abi (contract_address chain : string) : M value :=
  if known_chain chain then
    send (ExplorerGetAbi chain contract_address) ;;;
    lift (explorer_result env chain contract_address)
  else raise (KeyError chain).

Definition abi_path (contract_address : string) : string :=
  path_join CONTRACTS_STORAGE_PATH (contract_address ++ ".abi").

Definition fetch_contract_abi (contract_address : string) : M (option string) :=
  let path := abi_path contract_address in
  present <- isfile path ;;
  if present then text <- read_file path ;; ret (Some text)
  else ret None.

(** [open(path, "x")] creates the empty file; [f.write] then accepts text
    only, so another value leaves the empty file behind and raises. *)
Definition store_contract_abi (contract_address : string) (contract_abi : value)
  : M unit :=
  let path := abi_path contract_address in
  present <- isfile path ;;
  if negb present then
    if can_create env path then
      write_file path "" ;;;
      match contract_abi with
      | VStr text => write_file path text
      | _ => raise TypeError
      end
    else raise (FileNotFoundError path)
  else ret tt.

Definition value_of_text (o : option string) : value :=
  match o with Some s => VStr s | None => VNone end.

(** [json.loads(v)] *)
Definition py_json_loads (v : value) : result value :=
  match v with
  | VStr s => json_loads env s
  | _ => Raise TypeError
  end.

Definition get_contract (contract_address chain provider : string) : M contract :=
  contract_address <- lift (checksum_address contract_address chain) ;;
  cached <- fetch_contract_abi contract_address ;;
  contract_abi <-
    (if negb (truthy (value_of_text cached)) then
       print [Text "fetching contract "; Shown (VStr contract_address);
              Text " for the first time"] ;;;
       fetched <- get_contract_abi contract_address chain ;;
       store_contract_abi contract_address fetched ;;;
       ret fetched
     else ret (value_of_text cached)) ;;
  c <- lift (web3_client chain provider) ;;
  abi <- lift (py_json_loads contract_abi) ;;
  ret {| contract_client := c; contract_address := contract_address;
         contract_abi := abi |}.

Definition get_latest_block_number (chain : string) : M Z :=
  c <- lift (web3_client chain "http") ;;
  send (EthBlockNumber c) ;;;
  lift (node_block_number env c).

Definition decode_contract_transaction (transaction_address chain : string)
  : M (value * value) :=
  c <- lift (web3_client chain "http") ;;
  send (EthGetTransaction c transaction_address) ;;;
  transaction <- lift (node_get_transaction env c transaction_address) ;;
  let contract_address := tx_to transaction in
  print [Text "decoding transaction. hash: "; Shown (VStr transaction_address);
         Text " | contract: "; Shown (value_of_text contract_address)] ;;;
  contract <-
    match contract_address with
    | Some a => get_contract a "eth" "http"
    | None => raise TypeError
    end ;;
  try_except
    (lift (decode_function_input env contract (tx_input transaction)))
    (fun e => print [Text "exception decoding function: "; ShownExn e] ;;; raise e).

(** [for index, topic in enumerate(topics): if topic: filters[f"topic{index}"] = topic] *)
Fixpoint add_topics (index : nat) (topics : list value) (filters : dict) : dict :=
  match topics with
  | [] => filters
  | topic :: rest =>
      add_topics (S index) rest
        (if truthy topic
         then dict_set filters ("topic" ++ pretty index) topic
         else filters)
  end.

(** The first half of [get_events], up to the arguments of
    [construct_event_filter_params]. *)
Definition get_events_request (contract_address event_name : string)
    (token_id : value) (start_block : Z) (end_block : value) (chain : string)
    (topics : option (list value)) : M filter_request :=
  _ <- lift (web3_client chain "http") ;;
  contract_address <- lift (checksum_address contract_address "eth") ;;
  contract <- get_contract contract_address "eth" "http" ;;
  event_abi <- lift (find_matching_event_abi env (contract_abi contract) event_name) ;;
  let argument_filters := [("address", VStr contract_address)] in
  let argument_filters :=
    if truthy token_id then dict_set argument_filters "tokenId" token_id
    else argument_filters in
  let argument_filters :=
    match topics with
    | Some (t :: ts) => add_topics 0 (t :: ts) argument_filters
    | _ => argument_filters
    end in
  start_block <-
    (if (start_block <? 0)%Z then
       latest_block <- get_latest_block_number chain ;;
       ret (latest_block + start_block)%Z
     else ret start_block) ;;
  ret {| fr_event_abi := event_abi;
         fr_address := dict_get argument_filters "address";
         fr_argument_filters := argument_filters;
         fr_fromBlock := start_block;
         fr_toBlock := end_block |}.

Definition get_events (contract_address event_name : string)
    (token_id : value) (start_block : Z) (end_block : value) (chain : string)
    (topics : option (list value)) : M (list value) :=
  request <- get_events_request contract_address event_name token_id
               start_block end_block chain topics ;;
  built <- lift (construct_event_filter_params env request) ;;
  let event_filter_params := snd built in
  print [Text "Querying eth_getLogs with the following parameters:";
         Shown event_filter_params] ;;;
  c <- lift (web3_client chain "http") ;;
  send (EthGetLogs c event_filter_params) ;;;
  logs <- lift (node_get_logs env c event_filter_params) ;;
  mapM (fun log => lift (get_event_data env (fr_event_abi request) log)) logs.

(** [{**contract_metadata, **{"balance": ..., "symbol": ..., "name": ...,
    "address": ...}}] *)
Definition make_holding (contract_metadata : dict) (balance : Z)
    (symbol name : value) (contract_address : string) : dict :=
  dict_update contract_metadata
    [("balance", VInt balance); ("symbol", symbol); ("name", name);
     ("address", VStr contract_address)].

Definition metadata_dict (v : value) : result dict :=
  match v with
  | VDict d => Ok d
  | _ => Raise AttributeError
  end.

Definition get_nft_holdings (wallet_address contract_address : string)
    (contract_metadata : value) : M (option dict) :=
  wallet_address <- lift (checksum_address wallet_address "eth") ;;
  contract_address <- lift (checksum_address contract_address "eth") ;;
  contract <- get_contract contract_address "eth" "http" ;;
  if negb (truthy contract_metadata) then
    raise (PlainException "kinda need some metadata here")
  else
    symbol <- lift (py_get contract_metadata "symbol") ;;
    name <- lift (py_get contract_metadata "name") ;;
    send (EthBalanceOf contract wallet_address) ;;;
    balance <- lift (node_balanceOf env contract wallet_address) ;;
    if (balance <=? 0)%Z then ret None
    else
      metadata <- lift (metadata_dict contract_metadata) ;;
      ret (Some (make_holding metadata balance symbol name contract_address)).

(** ['fetch_batch' in metadata and metadata['fetch_batch'] is True] *)
Definition is_fetch_batch (contract_metadata : value) : bool :=
  match contract_metadata with
  | VDict d =>
      match dict_get d "fetch_batch" with
      | Some (VBool true) => true
      | _ => false
      end
  | _ => false
  end.

(** The operand of [[wallet] * n] and [range(n)]: an [int] (or a [bool]). *)
Definition as_count (v : value) : result Z :=
  match v with
  | VInt n => Ok n
  | VBool b => Ok (if b then 1 else 0)%Z
  | _ => Raise TypeError
  end.

(** [l.count(1)] on a list of integers. *)
Definition count_ones (l : list Z) : Z :=
  Z.of_nat (List.length (List.filter (fun b => (b =? 1)%Z) l)).

(** The body of the [try] block of [get_curated_nfts_holdings]. *)
Definition batch_balance (contract : contract) (wallet_address : string)
    (contract_metadata : value) : M Z :=
  total_supply <- lift (py_get contract_metadata "total_supply") ;;
  n <- lift (as_count total_supply) ;;
  let total := repeat wallet_address (Z.to_nat n) in
  let token_ids := map Z.of_nat (seq 0 (Z.to_nat n)) in
  send (EthBalanceOfBatch contract total token_ids) ;;;
  balances <- lift (node_balanceOfBatch env contract total token_ids) ;;
  ret (count_ones balances).

(** One turn of the loop of [get_curated_nfts_holdings]: the holdings
    collected so far go in, the holdings after this contract come out. *)
Definition curated_step (wallet_address : string) (include_batch : bool)
    (entry : string * value) (holdings : list dict) : M (list dict) :=
  let contract_metadata := snd entry in
  contract_address <- lift (checksum_address (fst entry) "eth") ;;
  contract <- get_contract contract_address "eth" "http" ;;
  symbol <- lift (py_get contract_metadata "symbol") ;;
  name <- lift (py_get contract_metadata "name") ;;
  let finish (balance : Z) : M (list dict) :=
    if (0 <? balance)%Z then
      metadata <- lift (metadata_dict contract_metadata) ;;
      ret (holdings ++
           [make_holding metadata balance symbol name contract_address])%list
    else ret holdings in
  if is_fetch_batch contract_metadata then
    if negb include_batch then ret holdings
    else
      balance <-
        try_except (batch_balance contract wallet_address contract_metadata)
          (fun _ =>
             print [Text "problems fetching contract balance: ";
                    Shown (VStr contract_address); Text ". moving along..."] ;;;
             ret 0%Z) ;;
      finish balance
  else
    send (EthBalanceOf contract wallet_address) ;;;
    balance <- lift (node_balanceOf env contract wallet_address) ;;
    finish balance.

Fixpoint curated_loop (wallet_address : string) (include_batch : bool)
    (entries : list (string * value)) (holdings : list dict) : M (list dict) :=
  match entries with
  | [] => ret holdings
  | entry :: rest =>
      holdings' <- curated_step wallet_address include_batch entry holdings ;;
      curated_loop wallet_address include_batch rest holdings'
  end.

Definition get_curated_nfts_holdings (wallet_address : string)
    (include_batch : bool) : M (list dict) :=
  wallet_address <- lift (checksum_address wallet_address "eth") ;;
  curated_contracts <- fetch_curated_contracts ;;
  curated_loop wallet_address include_batch curated_contracts [].

End Node.

(** ** Sample surroundings

    A concrete environment and world on which the helpers can be run: every
    collaborator answers, the explorer returns an empty ABI, the head of the
    chain is block 1000, and the curated list holds one [fetch_batch]
    contract with five token ids. *)

Definition sample_wallet : string := "0xfb6916095ca1df60bb79ce92ce3ea74c37c5d359".

Definition sample_address : string := "0x5aaeb6053f3e94c9b9a09f33669435e7ef1beaed".

Definition sample_metadata : value :=
  VDict [("symbol", VStr "X"); ("name", VStr "Foo");
         ("fetch_batch", VBool true); ("total_supply", VInt 5)].

Definition sample_env_with (curated : list (string * value))
    (batch : result (list Z)) : environment :=
  {| cwd := "/srv/helpers";
     can_create := fun _ => true;
     curated_json := Ok curated;
     explorer_result := fun _ _ => Ok (VStr "[]");
     json_loads := fun _ => Ok (VList []);
     node_get_transaction := fun _ _ =>
       Ok {| tx_to := Some sample_address; tx_input := "0xa9059cbb" |};
     node_block_number := fun _ => Ok 1000%Z;
     node_get_logs := fun _ _ => Ok [VStr "log"];
     node_balanceOf := fun _ _ => Ok 3%Z;
     node_balanceOfBatch := fun _ _ _ => batch;
     find_matching_event_abi := fun _ name => Ok (VStr name);
     construct_event_filter_params := fun request =>
       Ok (VList [], VDict [("fromBlock", VInt (fr_fromBlock request));
                            ("toBlock", fr_toBlock request)]);
     get_event_data := fun _ log => Ok log;
     decode_function_input := fun _ _ => Ok (VStr "transfer", VDict []) |}.

Definition sample_env (batch : result (list Z)) : environment :=
  sample_env_with [(sample_address, sample_metadata)] batch.

(** A second curated contract, queried one balance at a time. *)
Definition plain_address : string := "0xd1220a0cf47c7b9be7a2e6ba89f429762e7b9adb".

Definition plain_metadata : value :=
  VDict [("symbol", VStr "Y"); ("name", VStr "Bar"); ("fetch_batch", VBool false)].

Definition empty_world : world := {| files := ∅; calls := []; stdout := [] |}.

(** ** Vocabulary of the properties *)

(** The client of the default chain over HTTP. *)
Definition eth_http : client := {| client_chain := "eth"; client_websocket := false |}.


(** The number of positions of a batch answer that report a non-zero
    balance. *)
Definition count_nonzero (l : list Z) : Z :=
  Z.of_nat (List.length (List.filter (fun b => negb (b =? 0)%Z) l)).

(** Requests to a node, as opposed to the explorer. *)
Definition is_node_call (c : net_call) : bool :=
  match c with
  | ExplorerGetAbi _ _ => false
  | _ => true
  end.

(** The sample environment with another answer of the explorer. *)
Definition sample_env_explorer (answer : result value) : environment :=
  {| cwd := "/srv/helpers";
     can_create := fun _ => true;
     curated_json := Ok [(sample_address, sample_metadata)];
     explorer_result := fun _ _ => answer;
     json_loads := fun _ => Ok (VList []);
     node_get_transaction := fun _ _ =>
       Ok {| tx_to := None; tx_input := "0x6080" |};
     node_block_number := fun _ => Ok 1000%Z;
     node_get_logs := fun _ _ => Ok [VStr "log"];
     node_balanceOf := fun _ _ => Raise (ExternalError "execution reverted");
     node_balanceOfBatch := fun _ _ _ => Ok [];
     find_matching_event_abi := fun _ name => Ok (VStr name);
     construct_event_filter_params := fun request =>
       Ok (VList [], VDict [("fromBlock", VInt (fr_fromBlock request));
                            ("toBlock", fr_toBlock request)]);
     get_event_data := fun _ log => Ok log;
     decode_function_input := fun _ _ => Raise (ExternalError "no matching function") |}.

(** The sample environment with a node that returns three logs, the second
    of which does not decode. *)
Definition sample_env_logs : environment :=
  {| cwd := "/srv/helpers";
     can_create := fun _ => true;
     curated_json := Ok [];
     explorer_result := fun _ _ => Ok (VStr "[]");
     json_loads := fun _ => Ok (VList []);
     node_get_transaction := fun _ _ =>
       Ok {| tx_to := Some sample_address; tx_input := "0xa9059cbb" |};
     node_block_number := fun _ => Ok 1000%Z;
     node_get_logs := fun _ _ => Ok [VStr "first"; VNone; VStr "third"];
     node_balanceOf := fun _ _ => Ok 0%Z;
     node_balanceOfBatch := fun _ _ _ => Ok [];
     find_matching_event_abi := fun _ name => Ok (VStr name);
     construct_event_filter_params := fun request =>
       Ok (VList [], VDict [("fromBlock", VInt (fr_fromBlock request));
                            ("toBlock", fr_toBlock request)]);
     get_event_data := fun _ log =>
       match log with
       | VNone => Raise (ExternalError "log topics do not match the event")
       | _ => Ok log
       end;
     decode_function_input := fun _ _ => Ok (VStr "transfer", VDict []) |}.

(** ** The remaining helpers

    [get_balance], [get_current_gas_price], [get_transaction], [get_block],
    [get_transaction_receipt], [ns_client] with
    [get_ens_domain_for_address], and [etherscan.get_token_supply] hand one
    request to a client and return its answer. *)

(** The collaborators these helpers talk to. *)
Record services :=
  { (* [client.eth.get_balance(address)] *)
    node_get_balance : client -> string -> result Z;
    (* [client.eth.gas_price] *)
    node_gas_price : client -> result Z;
    (* [client.eth.get_block(block_number)] *)
    node_get_block : client -> value -> result value;
    (* [client.eth.get_transaction_receipt(HexBytes(hash))] *)
    node_get_transaction_receipt : client -> string -> result value;
    (* [ENS.fromWeb3(client).name(address)]: a name or [None] *)
    ens_name : client -> string -> result (option string);
    (* [requests.get(url, data=params).json()] for [tokeninfo] *)
    explorer_token_info : string -> string -> result value }.

(** [c.f(...)] on the client of [chain]: the client is built first. *)
Definition on_client {A} (chain : string) (f : client -> result A) : result A :=
  match web3_client chain "http" with
  | Ok c => f c
  | Raise e => Raise e
  end.

Definition get_balance (sv : services) (address chain : string) : result Z :=
  on_client chain (fun c => node_get_balance sv c address).

Definition get_current_gas_price (sv : services) (chain : string) : result Z :=
  on_client chain (node_gas_price sv).

Definition get_block (sv : services) (block_number : value) (chain : string)
  : result value :=
  on_client chain (fun c => node_get_block sv c block_number).

Definition get_transaction_receipt (sv : services) (address chain : string)
  : result value :=
  on_client chain (fun c => node_get_transaction_receipt sv c address).

Definition get_transaction (env : environment) (address chain : string)
  : M transaction :=
  (c <- lift (web3_client chain "http") ;;
   send (EthGetTransaction c address) ;;;
   lift (node_get_transaction env c address))%prog.

(** [ns_client(chain).name(address)] under [try ... except Exception: pass]. *)
Definition get_ens_domain_for_address (sv : services) (address chain : string)
  : result (option string) :=
  match on_client chain (fun c => ens_name sv c address) with
  | Ok ens_name => Ok ens_name
  | Raise _ => Ok None
  end.

(** [etherscan.get_token_supply]: [CHAINS[chain]] is indexed while the query
    parameters are built. *)
Definition get_token_supply (sv : services) (contract_address chain : string)
  : result value :=
  if known_chain chain then explorer_token_info sv chain contract_address
  else Raise (KeyError chain).

(** Sample collaborators: the name service knows one address and fails on
    every other. *)
Definition sample_services : services :=
  {| node_get_balance := fun _ _ => Ok 12%Z;
     node_gas_price := fun _ => Ok 30%Z;
     node_get_block := fun _ number => Ok (VDict [("number", number)]);
     node_get_transaction_receipt := fun _ _ => Ok (VDict [("status", VInt 1)]);
     ens_name := fun _ address =>
       if String.eqb address sample_wallet then Ok (Some "sample.eth")
       else Raise (ExternalError "invalid address");
     explorer_token_info := fun _ _ => Ok (VDict [("status", VStr "1")]) |}.

(** ** Further vocabulary *)

(** Text that is forty hexadecimal digits after an optional [0x] or [0X]. *)
Definition valid_address_text (a : string) : bool :=
  all_hex (remove_0x_prefix a) && (String.length (remove_0x_prefix a) =? 40)%nat.

(** The world only grows: cached files stay as they are, requests and
    printed lines are appended. *)
Definition grows (w w' : world) : Prop :=
  files w ⊆ files w' /\
  calls w `prefix_of` calls w' /\
  stdout w `prefix_of` stdout w'.

(** The keys that [make_holding] sets. *)
Definition holding_key (k : string) : bool :=
  String.eqb k "balance" || String.eqb k "symbol" || String.eqb k "name"
  || String.eqb k "address".

(** The address a holding carries, and the address a curated entry
    checksums to. *)
Definition holding_address (h : dict) : option value := dict_get h "address".

Definition entry_address (entry : string * value) : option value :=
  match checksum_address (fst entry) "eth" with
  | Ok a => Some (VStr a)
  | Raise _ => None
  end.

(** A program under which the world only grows, however it ends. *)
Definition monotone {A} (m : M A) : Prop :=
  forall w r w', m w = (r, w') -> grows w w'.

(** A program all of whose requests satisfy [ok], however it ends. *)
Definition only_sends {A} (ok : net_call -> Prop) (m : M A) : Prop :=
  forall w r w', m w = (r, w') ->
    exists sent, calls w' = (calls w ++ sent)%list /\ Forall ok sent.

(** The requests an event query on [chain] may make: the explorer's ABI
    request for ["eth"], and the head and log queries on the client of
    [chain]. *)
Definition event_query_call (chain : string) (x : net_call) : Prop :=
  (exists a, x = ExplorerGetAbi "eth" a) \/
  x = EthBlockNumber {| client_chain := chain; client_websocket := false |} \/
  (exists params,
     x = EthGetLogs {| client_chain := chain; client_websocket := false |} params).

(** The topic filed under position [i], if any. *)
Definition topic_at (topics : list value) (i : nat) : option value :=
  match topics !! i with
  | Some t => if truthy t then Some t else None
  | None => None
  end.

(** * Properties *)

(** ** Test vectors *)

Example keccak_empty :
  keccak_text "" = "0xc5d2460186f7233c927e7db2dcc703c0e500b653ca82273b7bfad8045d85a470".
Proof. vm_compute. reflexivity. Qed.

Example eip55_vector_1 :
  to_checksum_address "0x5aaeb6053f3e94c9b9a09f33669435e7ef1beaed"
  = Ok "0x5aAeb6053F3E94C9b9A09f33669435E7Ef1BeAed".
Proof. vm_compute. reflexivity. Qed.

Example eip55_vector_2 :
  to_checksum_address "FB6916095CA1DF60BB79CE92CE3EA74C37C5D359"
  = Ok "0xfB6916095ca1df60bB79Ce92cE3Ea74c37c5d359".
Proof. vm_compute. reflexivity. Qed.

Example eip55_vector_3 :
  to_checksum_address "0XdbF03B407c01E7cD3CBea99509d93f8DDDC8C6FB"
  = Ok "0xdbF03B407c01E7cD3CBea99509d93f8DDDC8C6FB".
Proof. vm_compute. reflexivity. Qed.

Example eip55_vector_4 :
  to_checksum_address "0xd1220a0cf47c7b9be7a2e6ba89f429762e7b9adb"
  = Ok "0xD1220A0cf47c7B9Be7A2E6BA89F429762e7b9aDb".
Proof. vm_compute. reflexivity. Qed.

Example checksum_rejects : to_checksum_address "0x1234" = Raise ValueError.
Proof. vm_compute. reflexivity. Qed.

(** ** Case conversion *)

Ltac each_ascii c := destruct c as [[] [] [] [] [] [] [] []].

Lemma ascii_lower_idem c : ascii_lower (ascii_lower c) = ascii_lower c.
Proof. each_ascii c; reflexivity. Qed.

Lemma ascii_lower_upper c : ascii_lower (ascii_upper c) = ascii_lower c.
Proof. each_ascii c; reflexivity. Qed.

Lemma hex_value_lower c : is_hexdigit (ascii_lower c) = is_hexdigit c.
Proof. each_ascii c; reflexivity. Qed.

Lemma lower_idem s : lower (lower s) = lower s.
Proof. induction s as [|c r IH]; simpl; [|rewrite ascii_lower_idem, IH]; reflexivity. Qed.

Lemma lower_app a b : lower (a ++ b) = lower a ++ lower b.
Proof. induction a as [|c r IH]; simpl; [|rewrite IH]; reflexivity. Qed.

Lemma is_empty_lower s : is_empty (lower s) = is_empty s.
Proof. destruct s; reflexivity. Qed.

Lemma all_hex_lower s : all_hex (lower s) = all_hex s.
Proof.
  induction s as [|c r IH]; simpl; [reflexivity|].
  rewrite hex_value_lower, IH. reflexivity.
Qed.

Lemma str_drop_lower n s : str_drop n (lower s) = lower (str_drop n s).
Proof.
  revert s. induction n as [|n IH]; intros s; [reflexivity|].
  destruct s as [|c r]; simpl; [reflexivity | apply IH].
Qed.

Lemma is_0x_prefixed_lower s : is_0x_prefixed (lower s) = is_0x_prefixed s.
Proof.
  destruct s as [|c1 [|c2 r]].
  - reflexivity.
  - each_ascii c1; reflexivity.
  - each_ascii c1; try reflexivity; each_ascii c2; reflexivity.
Qed.

Lemma prefixed_lower s : startswith "0x" (lower s) = is_0x_prefixed s.
Proof.
  destruct s as [|c1 [|c2 r]].
  - reflexivity.
  - each_ascii c1; reflexivity.
  - each_ascii c1; try reflexivity; each_ascii c2; reflexivity.
Qed.

Lemma remove_0x_prefix_lower s :
  remove_0x_prefix (lower s) = lower (remove_0x_prefix s).
Proof.
  unfold remove_0x_prefix. rewrite is_0x_prefixed_lower.
  destruct (is_0x_prefixed s); [apply str_drop_lower | reflexivity].
Qed.

Lemma is_hex_lower s : is_hex (lower s) = is_hex s.
Proof.
  unfold is_hex.
  rewrite is_empty_lower, remove_0x_prefix_lower, all_hex_lower. reflexivity.
Qed.

Lemma to_hex_lower s : to_hex (lower s) = to_hex s.
Proof. unfold to_hex. rewrite lower_idem. reflexivity. Qed.

Lemma hexstr_if_str_to_hex_lower s :
  hexstr_if_str_to_hex (lower s) = hexstr_if_str_to_hex s.
Proof.
  unfold hexstr_if_str_to_hex.
  rewrite remove_0x_prefix_lower, is_empty_lower, is_hex_lower, to_hex_lower.
  reflexivity.
Qed.

Lemma to_normalized_address_with_lower chk s :
  to_normalized_address_with chk (lower s) = to_normalized_address_with chk s.
Proof.
  unfold to_normalized_address_with. rewrite hexstr_if_str_to_hex_lower.
  reflexivity.
Qed.

Lemma to_checksum_address_lower s :
  to_checksum_address (lower s) = to_checksum_address s.
Proof.
  unfold to_checksum_address, to_checksum_address_with.
  rewrite to_normalized_address_with_lower. reflexivity.
Qed.

(** The checksummed form depends on the input up to letter case only. *)
Lemma to_checksum_address_case a b :
  lower a = lower b -> to_checksum_address a = to_checksum_address b.
Proof.
  intros H.
  rewrite <- (to_checksum_address_lower a), <- (to_checksum_address_lower b), H.
  reflexivity.
Qed.

(** ** The digest has 32 bytes *)

Lemma keccak_round_length st rc : List.length (Keccak.keccak_round st rc) = 25%nat.
Proof.
  unfold Keccak.keccak_round, Keccak.chi, Keccak.positions.
  set (f := fun i : nat => _).
  simpl map. reflexivity.
Qed.

Lemma keccak_f_length st :
  List.length st = 25%nat -> List.length (Keccak.keccak_f st) = 25%nat.
Proof.
  unfold Keccak.keccak_f. generalize Keccak.round_constants.
  intros rcs. revert st.
  induction rcs as [|rc rcs IH]; intros st Hst; simpl; [exact Hst|].
  apply IH, keccak_round_length.
Qed.

Lemma xor_lanes_length st blk :
  List.length (Keccak.xor_lanes st blk) = List.length st.
Proof.
  revert blk. induction st as [|a st IH]; intros [|b blk]; simpl; try reflexivity.
  rewrite IH. reflexivity.
Qed.

Lemma absorb_length fuel st bs :
  List.length st = 25%nat -> List.length (Keccak.absorb fuel st bs) = 25%nat.
Proof.
  revert st bs. induction fuel as [|fuel IH]; intros st bs Hst; simpl; [exact Hst|].
  destruct bs as [|b bs]; [exact Hst|].
  apply IH, keccak_f_length. rewrite xor_lanes_length. exact Hst.
Qed.

Lemma keccak256_length msg : List.length (Keccak.keccak256 msg) = 32%nat.
Proof.
  unfold Keccak.keccak256.
  pose proof (absorb_length (List.length (Keccak.pad msg)) (repeat 0%Z 25)
                (Keccak.pad msg) eq_refl) as H.
  destruct (Keccak.absorb _ _ _) as [|a [|b [|c [|d st]]]]; simpl in H; try discriminate.
  reflexivity.
Qed.

Lemma string_of_list_ascii_length l :
  String.length (string_of_list_ascii l) = List.length l.
Proof. induction l as [|c l IH]; simpl; [|rewrite IH]; reflexivity. Qed.

Lemma encode_hex_length bs :
  String.length (encode_hex bs) = (2 + 2 * List.length bs)%nat.
Proof.
  unfold encode_hex.
  change (S (S (String.length (string_of_list_ascii
            (flat_map (fun b => [hex_digit (Z.shiftr b 4); hex_digit (Z.land b 15)]) bs))))
          = (2 + 2 * List.length bs)%nat).
  rewrite string_of_list_ascii_length.
  induction bs as [|b bs IH]; simpl in *; lia.
Qed.

Lemma keccak_text_length s : String.length (keccak_text s) = 66%nat.
Proof. unfold keccak_text. rewrite encode_hex_length, keccak256_length. reflexivity. Qed.

Lemma str_drop_length n s : String.length (str_drop n s) = (String.length s - n)%nat.
Proof.
  revert s. induction n as [|n IH]; intros s; simpl; [lia|].
  destruct s as [|c r]; simpl; [reflexivity | apply IH].
Qed.

(** ** Normalised and checksummed addresses *)

Lemma is_0x_prefixed_add s : is_0x_prefixed (add_0x_prefix s) = true.
Proof.
  unfold add_0x_prefix. destruct (is_0x_prefixed s) eqn:E; [exact E | reflexivity].
Qed.

Lemma startswith_0x s : startswith "0x" s = true -> s = "0x" ++ str_drop 2 s.
Proof.
  destruct s as [|c1 [|c2 r]]; cbn [startswith]; try discriminate.
  - rewrite andb_false_r. discriminate.
  - intros H. apply andb_prop in H as [H1 H2]. apply andb_prop in H2 as [H2 _].
    apply Ascii.eqb_eq in H1, H2. subst. reflexivity.
Qed.

Lemma hexdigit_not_x c :
  is_hexdigit c = true ->
  Ascii.eqb "x" c = false /\ Ascii.eqb "X" c = false.
Proof. each_ascii c; intros H; try (cbv in H; discriminate H); split; reflexivity. Qed.

Lemma all_hex_not_prefixed s : all_hex s = true -> is_0x_prefixed s = false.
Proof.
  destruct s as [|c1 [|c2 r]].
  - reflexivity.
  - intros _. unfold is_0x_prefixed. cbn [startswith].
    rewrite !andb_false_r. reflexivity.
  - cbn [all_hex]. intros H.
    apply andb_prop in H as [_ H]. apply andb_prop in H as [H _].
    apply hexdigit_not_x in H as [Hx HX].
    unfold is_0x_prefixed. cbn [startswith]. rewrite Hx, HX.
    cbn [andb]. rewrite !andb_false_r. reflexivity.
Qed.

(** A normalised address is [0x] followed by forty lower-case digits. *)
Lemma to_normalized_address_shape chk a n :
  to_normalized_address_with chk a = Ok n ->
  exists d, n = "0x" ++ d /\ String.length d = 40%nat /\ all_hex d = true /\ lower d = d.
Proof.
  unfold to_normalized_address_with.
  destruct (hexstr_if_str_to_hex a) as [h|e] eqn:Eh; [|discriminate].
  unfold hexstr_if_str_to_hex in Eh.
  destruct (_ && _) in Eh; [discriminate|]. injection Eh as <-.
  destruct (is_address_with chk (lower (to_hex a))) eqn:Ea; [|discriminate].
  intros [= <-].
  assert (Hx : is_hex_address (lower (to_hex a)) = true).
  { unfold is_address_with in Ea.
    destruct (is_checksum_formatted_address _) eqn:Ec; [|exact Ea].
    unfold is_checksum_formatted_address in Ec.
    apply andb_prop in Ec as [Ec _]. apply andb_prop in Ec as [Ec _]. exact Ec. }
  assert (Hp : startswith "0x" (lower (to_hex a)) = true).
  { rewrite prefixed_lower. apply is_0x_prefixed_add. }
  unfold is_hex_address, is_hex in Hx.
  assert (Hr : remove_0x_prefix (lower (to_hex a)) = str_drop 2 (lower (to_hex a))).
  { unfold remove_0x_prefix. rewrite is_0x_prefixed_lower.
    unfold to_hex. rewrite is_0x_prefixed_add. reflexivity. }
  rewrite Hr in Hx.
  apply andb_prop in Hx as [Hx Hl]. apply andb_prop in Hx as [_ Hx].
  apply Nat.eqb_eq in Hl.
  exists (str_drop 2 (lower (to_hex a))).
  split; [apply startswith_0x, Hp|].
  split; [exact Hl|]. split; [exact Hx|].
  rewrite str_drop_lower, lower_idem. reflexivity.
Qed.

Lemma normalized_fixed chk d :
  String.length d = 40%nat -> all_hex d = true -> lower d = d ->
  to_normalized_address_with chk ("0x" ++ d) = Ok ("0x" ++ d).
Proof.
  intros Hl Hh Hd.
  assert (Hlow : lower ("0x" ++ d) = "0x" ++ d).
  { rewrite lower_app, Hd. reflexivity. }
  unfold to_normalized_address_with, hexstr_if_str_to_hex.
  assert (Hhex : is_hex ("0x" ++ d) = true).
  { unfold is_hex. change (remove_0x_prefix ("0x" ++ d)) with d. exact Hh. }
  rewrite Hhex. simpl negb. rewrite andb_false_r.
  assert (Hto : to_hex ("0x" ++ d) = "0x" ++ d).
  { unfold to_hex. rewrite Hlow. reflexivity. }
  rewrite Hto, Hlow.
  assert (Hadr : is_hex_address ("0x" ++ d) = true).
  { unfold is_hex_address. rewrite Hhex.
    change (remove_0x_prefix ("0x" ++ d)) with d. rewrite Hl. reflexivity. }
  assert (Hfmt : is_checksum_formatted_address ("0x" ++ d) = false).
  { unfold is_checksum_formatted_address. rewrite Hadr.
    change (remove_0x_prefix ("0x" ++ d)) with d.
    rewrite Hd, String.eqb_refl. reflexivity. }
  unfold is_address_with. rewrite Hfmt, Hadr. reflexivity.
Qed.

Lemma checksum_digits_lower k : forall d h,
  String.length d = k -> (k <= String.length h)%nat -> lower d = d ->
  lower (checksum_digits k d h) = d.
Proof.
  induction k as [|k IH]; intros d h Hd Hh Hlow.
  - destruct d; [reflexivity | discriminate].
  - destruct d as [|c d]; [discriminate|].
    destruct h as [|x h]; [simpl in Hh; lia|].
    simpl in Hd, Hh, Hlow. injection Hd as Hd. injection Hlow as Hc Hlow.
    simpl. rewrite (IH d h Hd ltac:(lia) Hlow).
    f_equal.
    destruct (hex_value x) as [v|]; [destruct (7 <? v)%nat|];
      rewrite ?ascii_lower_upper; exact Hc.
Qed.

(** The checksummed form only changes the case of the normalised one. *)
Lemma to_checksum_address_shape a c :
  to_checksum_address a = Ok c ->
  exists d, to_normalized_address a = Ok ("0x" ++ d) /\
            String.length d = 40%nat /\ all_hex d = true /\ lower d = d /\
            lower c = "0x" ++ d.
Proof.
  unfold to_checksum_address, to_checksum_address_with.
  fold to_normalized_address.
  destruct (to_normalized_address a) as [n|e] eqn:En; [|discriminate].
  destruct (to_normalized_address_shape _ a n En) as (d & -> & Hl & Hh & Hd).
  change (str_drop 2 ("0x" ++ d)) with d.
  generalize (keccak_text_length (remove_0x_prefix ("0x" ++ d))).
  generalize (keccak_text (remove_0x_prefix ("0x" ++ d))). intros hash Hhash.
  intros Hc.
  assert (Hc' : c = add_0x_prefix (checksum_digits 40 d (str_drop 2 hash)))
    by congruence.
  clear Hc. subst c.
  assert (Hcd : lower (checksum_digits 40 d (str_drop 2 hash)) = d).
  { apply checksum_digits_lower; [exact Hl | rewrite str_drop_length; lia | exact Hd]. }
  assert (Hnp : is_0x_prefixed (checksum_digits 40 d (str_drop 2 hash)) = false).
  { rewrite <- is_0x_prefixed_lower, Hcd. apply all_hex_not_prefixed, Hh. }
  exists d. repeat split; try assumption.
  unfold add_0x_prefix. rewrite Hnp, lower_app, Hcd. reflexivity.
Qed.

(** Checksumming a checksummed address returns it. *)
Lemma to_checksum_address_idem a c :
  to_checksum_address a = Ok c -> to_checksum_address c = Ok c.
Proof.
  intros H. pose proof H as H0.
  apply to_checksum_address_shape in H as (d & Hn & Hl & Hh & Hd & Hc).
  rewrite <- H0.
  rewrite <- (to_checksum_address_lower c), Hc.
  unfold to_checksum_address, to_checksum_address_with.
  fold to_normalized_address. rewrite Hn.
  unfold to_normalized_address. rewrite (normalized_fixed _ d Hl Hh Hd).
  reflexivity.
Qed.

(** Cutting the library's recursion lost nothing: with the real
    [is_checksum_address] in place of the stub, normalisation is the same
    function. *)
Lemma to_normalized_address_knot a :
  to_normalized_address_with is_checksum_address a = to_normalized_address a.
Proof.
  unfold to_normalized_address, to_normalized_address_with.
  destruct (hexstr_if_str_to_hex a) as [h|e]; [|reflexivity].
  unfold is_address_with.
  destruct (is_checksum_formatted_address (lower h)) eqn:E; [|reflexivity].
  unfold is_checksum_formatted_address in E.
  rewrite remove_0x_prefix_lower, lower_idem, String.eqb_refl in E.
  rewrite andb_false_r in E. discriminate.
Qed.

(** ** Running programs *)

Arguments to_checksum_address : simpl never.
Arguments checksum_address : simpl never.
Arguments keccak_text : simpl never.
Arguments abi_path : simpl never.

Lemma bind_ok {A B} (m : M A) (f : A -> M B) w a w1 :
  m w = (Ok a, w1) -> bind m f w = f a w1.
Proof. unfold bind. intros ->. reflexivity. Qed.

Lemma bind_raise {A B} (m : M A) (f : A -> M B) w e w1 :
  m w = (Raise e, w1) -> bind m f w = (Raise e, w1).
Proof. unfold bind. intros ->. reflexivity. Qed.

Lemma bind_inv {A B} (m : M A) (f : A -> M B) w r w' :
  bind m f w = (r, w') ->
  (exists e, m w = (Raise e, w') /\ r = Raise e) \/
  (exists a w1, m w = (Ok a, w1) /\ f a w1 = (r, w')).
Proof.
  unfold bind. destruct (m w) as [[a|e] w1]; intros H.
  - right. eauto.
  - left. injection H as <- <-. eauto.
Qed.

Lemma bind_ok_inv {A B} (m : M A) (f : A -> M B) w b w' :
  bind m f w = (Ok b, w') ->
  exists a w1, m w = (Ok a, w1) /\ f a w1 = (Ok b, w').
Proof.
  intros H. apply bind_inv in H as [(e & _ & He)|H]; [discriminate | exact H].
Qed.

Lemma lift_ok_inv {A} (r : result A) w a w' :
  lift r w = (Ok a, w') -> r = Ok a /\ w' = w.
Proof. unfold lift. intros [= -> ->]. split; reflexivity. Qed.

(** Splits a successful run of [x <- m ;; k] into its two halves. *)
Tactic Notation "step" hyp(H) "as" ident(a) ident(w1) ident(H1) :=
  apply bind_ok_inv in H as (a & w1 & H1 & H);
  try (apply lift_ok_inv in H1 as [H1 ->]).

(** Runs a closed program: names its final world and evaluates its result. *)
Tactic Notation "run" constr(t) "as" ident(w) ident(E) :=
  let r := fresh "r" in
  let Hr := fresh "Hr" in
  destruct t as [r w] eqn:E;
  let v := eval vm_compute in (fst t) in
  assert (Hr : r = v)
    by (change r with (fst (r, w)); rewrite <- E; vm_compute; reflexivity);
  subst r.

(** ** The ABI store *)

Section Store.

Variable env : environment.

Lemma fetch_contract_abi_eq a w :
  fetch_contract_abi env a w = (Ok (files w !! abi_path env a), w).
Proof.
  unfold fetch_contract_abi, bind, isfile, read_file, ret.
  destruct (files w !! abi_path env a) eqn:E; rewrite ?E; reflexivity.
Qed.

Lemma store_contract_abi_present a abi w text :
  files w !! abi_path env a = Some text ->
  store_contract_abi env a abi w = (Ok tt, w).
Proof.
  intros H. unfold store_contract_abi, bind, isfile, ret. rewrite H. reflexivity.
Qed.

Lemma store_contract_abi_ok a abi w w1 :
  store_contract_abi env a abi w = (Ok tt, w1) ->
  exists text, files w1 !! abi_path env a = Some text /\
               (files w !! abi_path env a = None -> abi = VStr text).
Proof.
  unfold store_contract_abi, bind, isfile, ret, write_file, raise.
  destruct (files w !! abi_path env a) as [t|] eqn:E; simpl.
  - intros [= <-]. exists t. split; [exact E | discriminate].
  - destruct (can_create env (abi_path env a)); [|discriminate].
    destruct abi; try discriminate.
    intros [= <-]. simpl. exists s. split; [|reflexivity].
    rewrite lookup_insert_eq. reflexivity.
Qed.

End Store.

(** C3: the ABI store is write-once.  Once [store_contract_abi A abi1] has
    returned normally, [A] has an entry (the text [abi1] when there was none
    before), a later [store_contract_abi A abi2] returns without touching
    the world, and [fetch_contract_abi A] answers as it did before it. *)
Theorem store_contract_abi_write_once
    (env : environment) (A : string) (abi1 abi2 : value) (w w1 : world) :
  store_contract_abi env A abi1 w = (Ok tt, w1) ->
  store_contract_abi env A abi2 w1 = (Ok tt, w1) /\
  fetch_contract_abi env A (snd (store_contract_abi env A abi2 w1))
    = fetch_contract_abi env A w1 /\
  exists text, fetch_contract_abi env A w1 = (Ok (Some text), w1) /\
               (fst (fetch_contract_abi env A w) = Ok None -> abi1 = VStr text).
Proof.
  intros H. apply store_contract_abi_ok in H as (text & Hin & Hnew).
  rewrite (store_contract_abi_present env A abi2 w1 text Hin).
  split; [reflexivity|]. split; [reflexivity|].
  exists text. rewrite !fetch_contract_abi_eq, Hin. split; [reflexivity|].
  simpl. intros [= E]. apply Hnew, E.
Qed.

Lemma store_contract_abi_write_once_witness :
  exists w1,
    store_contract_abi (sample_env (Ok [])) sample_address (VStr "[1]") empty_world
    = (Ok tt, w1) /\
    store_contract_abi (sample_env (Ok [])) sample_address (VStr "[2]") w1
    = (Ok tt, w1) /\
    fetch_contract_abi (sample_env (Ok [])) sample_address w1 = (Ok (Some "[1]"), w1).
Proof.
  run (store_contract_abi (sample_env (Ok [])) sample_address (VStr "[1]")
         empty_world) as w1 E.
  pose proof (store_contract_abi_write_once (sample_env (Ok [])) sample_address
                (VStr "[1]") (VStr "[2]") empty_world w1 E)
    as (Hagain & _ & text & Hfetch & Hnew).
  assert (Htext : VStr "[1]" = VStr text)
    by (apply Hnew; vm_compute; reflexivity).
  injection Htext as <-.
  exists w1. split; [reflexivity|]. split; [exact Hagain | exact Hfetch].
Defined.

(** ** Resolving a contract *)


Lemma web3_client_http chain c :
  web3_client chain "http" = Ok c ->
  c = {| client_chain := chain; client_websocket := false |}.
Proof.
  unfold web3_client. simpl.
  destruct (known_chain chain); intros [= <-]; reflexivity.
Qed.

Lemma checksum_address_known chain a c :
  checksum_address a chain = Ok c ->
  known_chain chain = true /\ to_checksum_address a = Ok c.
Proof.
  unfold checksum_address, web3_client. simpl.
  destruct (known_chain chain); [|discriminate]. intros H. split; [reflexivity | exact H].
Qed.

Lemma checksum_address_idem a chain c :
  checksum_address a chain = Ok c -> checksum_address c chain = Ok c.
Proof.
  unfold checksum_address.
  destruct (web3_client chain "http"); [apply to_checksum_address_idem | discriminate].
Qed.

Lemma checksum_address_case a b chain :
  lower a = lower b -> checksum_address a chain = checksum_address b chain.
Proof.
  intros H. unfold checksum_address.
  rewrite (to_checksum_address_case a b H). reflexivity.
Qed.

Section Resolve.

Variable env : environment.



Lemma get_contract_eq a chain provider ca w :
  checksum_address a chain = Ok ca ->
  get_contract env a chain provider w =
  bind (if negb (truthy (value_of_text (files w !! abi_path env ca))) then
          print [Text "fetching contract "; Shown (VStr ca);
                 Text " for the first time"] ;;;
          fetched <- get_contract_abi env ca chain ;;
          store_contract_abi env ca fetched ;;;
          ret fetched
        else ret (value_of_text (files w !! abi_path env ca)))
       (fun contract_abi =>
          c <- lift (web3_client chain provider) ;;
          abi <- lift (py_json_loads env contract_abi) ;;
          ret {| contract_client := c; contract_address := ca;
                 contract_abi := abi |}) w.
Proof.
  intros Hca. unfold get_contract.
  rewrite (bind_ok (lift (checksum_address a chain)) _ w ca w)
    by (unfold lift; rewrite Hca; reflexivity).
  rewrite (bind_ok _ _ w _ w (fetch_contract_abi_eq env ca w)).
  reflexivity.
Qed.

(** With a non-empty cached ABI the world is left as it was. *)
Lemma get_contract_cached a chain provider ca w :
  checksum_address a chain = Ok ca ->
  truthy (value_of_text (files w !! abi_path env ca)) = true ->
  snd (get_contract env a chain provider w) = w.
Proof.
  intros Hca Ht. rewrite (get_contract_eq _ _ _ _ _ Hca), Ht. simpl.
  unfold bind, lift, ret. repeat case_match; simplify_eq; reflexivity.
Qed.

(** Without one the explorer is asked. *)
Lemma get_contract_uncached a chain provider ca w :
  checksum_address a chain = Ok ca ->
  truthy (value_of_text (files w !! abi_path env ca)) = false ->
  calls (snd (get_contract env a chain provider w))
  = (calls w ++ [ExplorerGetAbi chain ca])%list.
Proof.
  intros Hca Ht. destruct (checksum_address_known _ _ _ Hca) as [Hk _].
  rewrite (get_contract_eq _ _ _ _ _ Hca), Ht. simpl.
  unfold get_contract_abi, store_contract_abi. rewrite Hk.
  unfold bind, lift, ret, print, send, isfile, write_file, raise. simpl.
  repeat (case_match; simplify_eq; simpl); reflexivity.
Qed.

(** What [get_contract] sends: nothing, or one explorer request for the
    checksummed address on the given chain. *)
Lemma get_contract_calls a chain provider w r w' :
  get_contract env a chain provider w = (r, w') ->
  calls w' = calls w \/
  exists ca, checksum_address a chain = Ok ca /\
             calls w' = (calls w ++ [ExplorerGetAbi chain ca])%list.
Proof.
  intros H.
  destruct (checksum_address a chain) as [ca|e] eqn:Hca.
  - destruct (truthy (value_of_text (files w !! abi_path env ca))) eqn:Ht.
    + left. pose proof (get_contract_cached a chain provider ca w Hca Ht) as Hw.
      rewrite H in Hw. simpl in Hw. subst w'. reflexivity.
    + right. exists ca. split; [reflexivity|].
      pose proof (get_contract_uncached a chain provider ca w Hca Ht) as Hw.
      rewrite H in Hw. exact Hw.
  - left. unfold get_contract, bind, lift in H. rewrite Hca in H.
    injection H as _ <-. reflexivity.
Qed.



End Resolve.

(** ** Checksummed addresses *)

(** C8: checksumming is idempotent, and its result does not depend on the
    letter case of its input: when [checksum_address A] returns [c],
    [checksum_address c] returns [c] again, and two inputs that are equal up
    to case have the same outcome. *)
Theorem checksum_address_idempotent_case_independent (A B chain : string) :
  (forall c, checksum_address A chain = Ok c -> checksum_address c chain = Ok c) /\
  (lower A = lower B -> checksum_address A chain = checksum_address B chain).
Proof.
  split.
  - intros c. apply checksum_address_idem.
  - apply checksum_address_case.
Qed.

Lemma checksum_address_idempotent_case_independent_witness :
  checksum_address "0X5AAEB6053F3E94C9B9A09F33669435E7EF1BEAED" "eth"
    = Ok "0x5aAeb6053F3E94C9b9A09f33669435E7Ef1BeAed" /\
  checksum_address "0x5aAeb6053F3E94C9b9A09f33669435E7Ef1BeAed" "eth"
    = Ok "0x5aAeb6053F3E94C9b9A09f33669435E7Ef1BeAed" /\
  checksum_address "0X5AAEB6053F3E94C9B9A09F33669435E7EF1BEAED" "eth"
    = checksum_address "0x5aaeb6053f3e94c9b9a09f33669435e7ef1beaed" "eth".
Proof.
  pose proof (checksum_address_idempotent_case_independent
                "0X5AAEB6053F3E94C9B9A09F33669435E7EF1BEAED"
                "0x5aaeb6053f3e94c9b9a09f33669435e7ef1beaed" "eth") as HT.
  pose proof (proj1 HT) as Hidem. pose proof (proj2 HT) as Hcase.
  assert (H : checksum_address "0X5AAEB6053F3E94C9B9A09F33669435E7EF1BEAED" "eth"
              = Ok "0x5aAeb6053F3E94C9b9A09f33669435E7Ef1BeAed")
    by (vm_compute; reflexivity).
  split; [exact H|]. split; [exact (Hidem _ H)|].
  apply Hcase. vm_compute. reflexivity.
Defined.



(** ** Dictionaries *)

Lemma dict_get_set_eq d k v : dict_get (dict_set d k v) k = Some v.
Proof.
  induction d as [|[k0 v0] d IH]; simpl.
  - rewrite String.eqb_refl. reflexivity.
  - destruct (String.eqb k0 k) eqn:E; simpl; rewrite E; [reflexivity | exact IH].
Qed.

Lemma dict_get_set_ne d k k' v :
  String.eqb k k' = false -> dict_get (dict_set d k v) k' = dict_get d k'.
Proof.
  intros Hne. induction d as [|[k0 v0] d IH]; simpl.
  - rewrite Hne. reflexivity.
  - destruct (String.eqb k0 k) eqn:E; simpl.
    + apply String.eqb_eq in E. subst k0. rewrite Hne. reflexivity.
    + rewrite IH. reflexivity.
Qed.

Lemma add_topics_tokenId topics : forall index filters,
  dict_get (add_topics index topics filters) "tokenId" = dict_get filters "tokenId".
Proof.
  induction topics as [|topic rest IH]; intros index filters; simpl; [reflexivity|].
  rewrite IH. destruct (truthy topic); [|reflexivity].
  apply dict_get_set_ne. reflexivity.
Qed.

(** ** Event queries *)

(** C4: a negative start block is an offset from the head of the chain.
    In every event query that gets as far as building its filter, a start
    [-N] makes the filter start at [H - N], where [H] is the block number the
    node of the requested chain reports; a start that is not negative is used
    as given.  The request is the one [get_events] hands to
    [construct_event_filter_params]. *)
Theorem get_events_start_block
    (env : environment) (address event_name : string) (token_id : value)
    (start_block : Z) (end_block : value) (chain : string)
    (topics : option (list value)) (w w' : world) (request : filter_request) :
  get_events_request env address event_name token_id start_block end_block
    chain topics w = (Ok request, w') ->
  ((start_block < 0)%Z ->
     exists c H, web3_client chain "http" = Ok c /\
                 node_block_number env c = Ok H /\
                 fr_fromBlock request = (H + start_block)%Z) /\
  ((0 <= start_block)%Z -> fr_fromBlock request = start_block) /\
  get_events env address event_name token_id start_block end_block chain topics w
  = (built <- lift (construct_event_filter_params env request) ;;
     print [Text "Querying eth_getLogs with the following parameters:";
            Shown (snd built)] ;;;
     c <- lift (web3_client chain "http") ;;
     send (EthGetLogs c (snd built)) ;;;
     logs <- lift (node_get_logs env c (snd built)) ;;
     mapM (fun log => lift (get_event_data env (fr_event_abi request) log)) logs)%prog
      w'.
Proof.
  intros Hreq.
  split; [|split].
  - intros Hneg. unfold get_events_request in Hreq.
    step Hreq as c0 w0 Hc0. step Hreq as ca w1 Hca.
    step Hreq as k w2 Hk. step Hreq as abi w3 Habi.
    apply Z.ltb_lt in Hneg. rewrite Hneg in Hreq.
    step Hreq as start w4 Hstart.
    step Hstart as H w5 HH. unfold ret in Hstart, Hreq.
    simplify_eq.
    unfold get_latest_block_number in HH.
    step HH as c w6 Hc. step HH as u w7 Hsend.
    apply lift_ok_inv in HH as [HH _].
    exists c, H. auto.
  - intros Hpos. unfold get_events_request in Hreq.
    step Hreq as c0 w0 Hc0. step Hreq as ca w1 Hca.
    step Hreq as k w2 Hk. step Hreq as abi w3 Habi.
    apply Z.ltb_ge in Hpos. rewrite Hpos in Hreq.
    step Hreq as start w4 Hstart. unfold ret in Hstart, Hreq.
    simplify_eq. reflexivity.
  - unfold get_events. rewrite (bind_ok _ _ _ _ _ Hreq). reflexivity.
Qed.

Lemma get_events_start_block_witness :
  exists request w',
    get_events_request (sample_env (Ok [])) sample_address "Transfer" VNone
      (-100) (VStr "latest") "polygon" None empty_world = (Ok request, w') /\
    fr_fromBlock request = 900%Z.
Proof.
  run (get_events_request (sample_env (Ok [])) sample_address "Transfer"
         VNone (-100) (VStr "latest") "polygon" None empty_world) as w' E.
  eexists. exists w'. split; [reflexivity|].
  pose proof (proj1 (get_events_start_block _ _ _ _ _ _ _ _ _ _ _ E)) as Hneg.
  destruct (Hneg ltac:(lia)) as (c & H & _ & HH & Hfrom).
  simpl in HH. injection HH as <-. exact Hfrom.
Defined.

(** C9: a token id of [0] is not applied as a filter.  [get_events] with
    [token_id = 0] is the same computation as with no token id, and the
    argument filters it builds carry no [tokenId] entry. *)
Theorem get_events_token_id_zero
    (env : environment) (address event_name : string) (start_block : Z)
    (end_block : value) (chain : string) (topics : option (list value)) :
  get_events env address event_name (VInt 0) start_block end_block chain topics
  = get_events env address event_name VNone start_block end_block chain topics /\
  forall w request w',
    get_events_request env address event_name (VInt 0) start_block end_block
      chain topics w = (Ok request, w') ->
    dict_get (fr_argument_filters request) "tokenId" = None.
Proof.
  split; [reflexivity|].
  intros w request w' Hreq. unfold get_events_request in Hreq.
  step Hreq as c0 w0 Hc0. step Hreq as ca w1 Hca.
  step Hreq as k w2 Hk. step Hreq as abi w3 Habi.
  step Hreq as start w4 Hstart. unfold ret in Hreq. simplify_eq.
  cbn [fr_argument_filters truthy Z.eqb negb].
  destruct topics as [[|t ts]|]; try reflexivity.
  rewrite add_topics_tokenId. destruct (truthy t); reflexivity.
Qed.

Lemma get_events_token_id_zero_witness :
  exists request w',
    get_events_request (sample_env (Ok [])) sample_address "Transfer" (VInt 0)
      0 (VStr "latest") "eth" (Some [VNone; VStr "0xabc"]) empty_world
    = (Ok request, w') /\
    fr_argument_filters request
    = [("address", VStr "0x5aAeb6053F3E94C9b9A09f33669435E7Ef1BeAed");
       ("topic1", VStr "0xabc")] /\
    dict_get (fr_argument_filters request) "tokenId" = None.
Proof.
  run (get_events_request (sample_env (Ok [])) sample_address "Transfer"
         (VInt 0) 0 (VStr "latest") "eth" (Some [VNone; VStr "0xabc"])
         empty_world) as w' E.
  eexists. exists w'. split; [reflexivity|]. split; [reflexivity|].
  exact (proj2 (get_events_token_id_zero (sample_env (Ok [])) sample_address
                  "Transfer" 0 (VStr "latest") "eth" (Some [VNone; VStr "0xabc"]))
               _ _ _ E).
Defined.

Example get_events_token_id_seven :
  exists request w',
    get_events_request (sample_env (Ok [])) sample_address "Transfer" (VInt 7)
      0 (VStr "latest") "eth" None empty_world = (Ok request, w') /\
    dict_get (fr_argument_filters request) "tokenId" = Some (VInt 7).
Proof.
  run (get_events_request (sample_env (Ok [])) sample_address "Transfer"
         (VInt 7) 0 (VStr "latest") "eth" None empty_world) as w' E.
  eexists. exists w'. split; reflexivity.
Qed.

(** ** Decoding a transaction *)



Example decode_contract_transaction_polygon :
  calls (snd (decode_contract_transaction (sample_env (Ok [])) "0xabc" "polygon"
                empty_world))
  = [EthGetTransaction {| client_chain := "polygon"; client_websocket := false |}
       "0xabc";
     ExplorerGetAbi "eth" "0x5aAeb6053F3E94C9b9A09f33669435E7Ef1BeAed"].
Proof. vm_compute. reflexivity. Qed.

(** ** Holdings *)

Lemma make_holding_balance d b symbol name a :
  dict_get (make_holding d b symbol name a) "balance" = Some (VInt b).
Proof.
  unfold make_holding, dict_update. cbn [fold_left fst snd].
  rewrite !dict_get_set_ne by reflexivity. apply dict_get_set_eq.
Qed.

Section Holdings.

Variable env : environment.

(** The tail of a turn of the loop: a holding is appended exactly when the
    balance is strictly positive. *)
Lemma finish_inv md holdings b symbol name a w hs w' :
  (if (0 <? b)%Z then
     metadata <- lift (metadata_dict md) ;;
     ret (holdings ++ [make_holding metadata b symbol name a])%list
   else ret holdings) w = (Ok hs, w') ->
  w' = w /\
  (((b <= 0)%Z /\ hs = holdings) \/
   ((0 < b)%Z /\ exists d, md = VDict d /\
                 hs = (holdings ++ [make_holding d b symbol name a])%list)).
Proof.
  destruct (0 <? b)%Z eqn:Eb.
  - apply Z.ltb_lt in Eb. intros H. step H as d w1 Hd.
    unfold ret in H. injection H as <- <-. split; [reflexivity|].
    right. split; [exact Eb|]. exists d. split; [|reflexivity].
    destruct md; try discriminate. injection Hd as ->. reflexivity.
  - apply Z.ltb_ge in Eb. unfold ret. intros [= <- <-]. auto.
Qed.




End Holdings.



(** ** Batched balances *)

Lemma is_fetch_batch_dict md :
  is_fetch_batch md = true -> exists d, md = VDict d.
Proof. destruct md; try discriminate. eauto. Qed.

Section Batch.

Variable env : environment.

(** A turn of the loop on a [fetch_batch] contract, once the contract is
    resolved. *)
Lemma curated_step_batch wallet include_batch a md holdings w ca k w1 :
  is_fetch_batch md = true ->
  checksum_address a "eth" = Ok ca ->
  get_contract env ca "eth" "http" w = (Ok k, w1) ->
  exists symbol name,
    curated_step env wallet include_batch (a, md) holdings w =
    (if negb include_batch then ret holdings
     else
       balance <-
         try_except (batch_balance env k wallet md)
           (fun _ =>
              print [Text "problems fetching contract balance: ";
                     Shown (VStr ca); Text ". moving along..."] ;;;
              ret 0%Z) ;;
       if (0 <? balance)%Z then
         metadata <- lift (metadata_dict md) ;;
         ret (holdings ++ [make_holding metadata balance symbol name ca])%list
       else ret holdings) w1.
Proof.
  intros Hb Hca Hk. destruct (is_fetch_batch_dict _ Hb) as [d ->].
  eexists. eexists. unfold curated_step. cbn [fst snd].
  rewrite (bind_ok (lift (checksum_address a "eth")) _ w ca w)
    by (unfold lift; rewrite Hca; reflexivity).
  rewrite (bind_ok _ _ _ _ _ Hk).
  rewrite (bind_ok (lift (py_get (VDict d) "symbol")) _ w1 _ w1 eq_refl).
  rewrite (bind_ok (lift (py_get (VDict d) "name")) _ w1 _ w1 eq_refl).
  rewrite Hb. reflexivity.
Qed.

Lemma batch_balance_ok k wallet md ts n balances w :
  py_get md "total_supply" = Ok ts ->
  as_count ts = Ok n ->
  node_balanceOfBatch env k (repeat wallet (Z.to_nat n))
    (map Z.of_nat (seq 0 (Z.to_nat n))) = Ok balances ->
  batch_balance env k wallet md w
  = (Ok (count_ones balances),
     {| files := files w;
        calls := (calls w ++ [EthBalanceOfBatch k (repeat wallet (Z.to_nat n))
                                (map Z.of_nat (seq 0 (Z.to_nat n)))])%list;
        stdout := stdout w |}).
Proof.
  intros Hts Hn Hb. unfold batch_balance, bind, lift, send, ret.
  rewrite Hts, Hn, Hb. reflexivity.
Qed.

End Batch.

Lemma count_ones_nonzero balances :
  Forall (fun b => b = 0 \/ b = 1)%Z balances ->
  count_ones balances = count_nonzero balances.
Proof.
  unfold count_ones, count_nonzero. intros H. do 2 f_equal.
  induction H as [|b l [->| ->] _ IH]; simpl; [reflexivity| |]; rewrite IH; reflexivity.
Qed.

(** C1, as the code has it: for a [fetch_batch] contract processed with
    [include_batch] set, the batched query is made over the ids
    [0 .. total_supply - 1] with the wallet repeated once per id, and the
    resulting balance is the number of positions that report a balance of
    exactly 1.  It is the number of non-zero positions whenever every
    position reports 0 or 1.  A holding with that balance is appended when
    it is positive. *)
Theorem batch_balance_counts_ones
    (env : environment) (wallet a : string) (md ts : value) (n : Z)
    (balances : list Z) (holdings : list dict) (w w1 : world) (ca : string)
    (k : contract) :
  is_fetch_batch md = true ->
  checksum_address a "eth" = Ok ca ->
  get_contract env ca "eth" "http" w = (Ok k, w1) ->
  py_get md "total_supply" = Ok ts ->
  as_count ts = Ok n ->
  node_balanceOfBatch env k (repeat wallet (Z.to_nat n))
    (map Z.of_nat (seq 0 (Z.to_nat n))) = Ok balances ->
  fst (batch_balance env k wallet md w1) = Ok (count_ones balances) /\
  (Forall (fun b => b = 0 \/ b = 1)%Z balances ->
   count_ones balances = count_nonzero balances) /\
  exists hs w2,
    curated_step env wallet true (a, md) holdings w = (Ok hs, w2) /\
    (((count_ones balances <= 0)%Z /\ hs = holdings) \/
     ((0 < count_ones balances)%Z /\
      exists h, hs = (holdings ++ [h])%list /\
                dict_get h "balance" = Some (VInt (count_ones balances)))).
Proof.
  intros Hb Hca Hk Hts Hn Hbal.
  pose proof (batch_balance_ok env k wallet md ts n balances w1 Hts Hn Hbal) as Hrun.
  split; [rewrite Hrun; reflexivity|].
  split; [apply count_ones_nonzero|].
  destruct (curated_step_batch env wallet true a md holdings w ca k w1 Hb Hca Hk)
    as (symbol & name & ->).
  cbn [negb]. unfold try_except at 1, bind at 1. rewrite Hrun.
  destruct (is_fetch_batch_dict _ Hb) as [d ->].
  destruct (0 <? count_ones balances)%Z eqn:Ec.
  - apply Z.ltb_lt in Ec. eexists. eexists. split; [reflexivity|].
    right. split; [exact Ec|]. eexists. split; [reflexivity|].
    apply make_holding_balance.
  - apply Z.ltb_ge in Ec. eexists. eexists. split; [reflexivity|]. auto.
Qed.

Lemma batch_balance_counts_ones_witness :
  exists hs w2,
    curated_step (sample_env (Ok [0; 1; 0; 1; 0]%Z)) sample_wallet true
      (sample_address, sample_metadata) [] empty_world = (Ok hs, w2) /\
    exists h, hs = [h] /\ dict_get h "balance" = Some (VInt 2).
Proof.
  set (env := sample_env (Ok [0; 1; 0; 1; 0]%Z)).
  run (get_contract env "0x5aAeb6053F3E94C9b9A09f33669435E7Ef1BeAed" "eth" "http"
         empty_world) as w1 Hk.
  assert (Hca : checksum_address sample_address "eth"
                = Ok "0x5aAeb6053F3E94C9b9A09f33669435E7Ef1BeAed")
    by (vm_compute; reflexivity).
  pose proof (batch_balance_counts_ones env sample_wallet sample_address
                sample_metadata (VInt 5) 5 [0; 1; 0; 1; 0]%Z [] empty_world w1 _ _
                eq_refl Hca Hk eq_refl eq_refl eq_refl) as (_ & _ & hs & w2 & Hstep & Hhs).
  exists hs, w2. split; [exact Hstep|].
  destruct Hhs as [[Hle _]|(_ & h & -> & Hh)].
  - vm_compute in Hle. destruct (Hle eq_refl).
  - exists h. split; [reflexivity | exact Hh].
Defined.

(** C1 fails as stated: the batched count is not the number of non-zero
    positions.  A wallet owning ids 1 and 3 with balances 2 and 5 is counted
    as owning nothing. *)
Lemma batch_balance_is_not_nonzero_count :
  ~ (forall (env : environment) (k : contract) (wallet : string) (md : value)
            (n : Z) (balances : list Z) (w : world),
       py_get md "total_supply" = Ok (VInt n) ->
       node_balanceOfBatch env k (repeat wallet (Z.to_nat n))
         (map Z.of_nat (seq 0 (Z.to_nat n))) = Ok balances ->
       fst (batch_balance env k wallet md w) = Ok (count_nonzero balances)).
Proof.
  intros H.
  specialize (H (sample_env (Ok [0; 2; 0; 5; 0]%Z))
                {| contract_client := eth_http;
                   contract_address := "0x5aAeb6053F3E94C9b9A09f33669435E7Ef1BeAed";
                   contract_abi := VList [] |}
                sample_wallet sample_metadata 5%Z [0; 2; 0; 5; 0]%Z empty_world
                eq_refl eq_refl).
  vm_compute in H. discriminate H.
Qed.

Example batch_holdings_miss_larger_balances :
  fst (get_curated_nfts_holdings (sample_env (Ok [0; 2; 0; 5; 0]%Z)) sample_wallet
         true empty_world) = Ok [].
Proof. vm_compute. reflexivity. Qed.

(** C6: a failure of the batched balance lookup does not abort the
    aggregation.  When the lookup for a [fetch_batch] contract raises, the
    guarded lookup yields balance 0 and prints the diagnostic, the turn of
    the loop leaves the holdings as they were, and the loop goes on with the
    remaining contracts. *)
Theorem batch_failure_is_zero_balance
    (env : environment) (wallet a : string) (md : value) (holdings : list dict)
    (rest : list (string * value)) (w w1 w2 : world) (ca : string) (k : contract)
    (e : exn) :
  is_fetch_batch md = true ->
  checksum_address a "eth" = Ok ca ->
  get_contract env ca "eth" "http" w = (Ok k, w1) ->
  batch_balance env k wallet md w1 = (Raise e, w2) ->
  let diagnostic := [Text "problems fetching contract balance: ";
                     Shown (VStr ca); Text ". moving along..."] in
  let w3 := {| files := files w2; calls := calls w2;
               stdout := (stdout w2 ++ [diagnostic])%list |} in
  try_except (batch_balance env k wallet md)
    (fun _ => print diagnostic ;;; ret 0%Z) w1 = (Ok 0%Z, w3) /\
  curated_step env wallet true (a, md) holdings w = (Ok holdings, w3) /\
  curated_loop env wallet true ((a, md) :: rest) holdings w
  = curated_loop env wallet true rest holdings w3.
Proof.
  intros Hb Hca Hk Hfail diagnostic w3.
  assert (Htry : try_except (batch_balance env k wallet md)
                   (fun _ => print diagnostic ;;; ret 0%Z) w1 = (Ok 0%Z, w3)).
  { unfold try_except. rewrite Hfail. reflexivity. }
  assert (Hstep : curated_step env wallet true (a, md) holdings w = (Ok holdings, w3)).
  { destruct (curated_step_batch env wallet true a md holdings w ca k w1 Hb Hca Hk)
      as (symbol & name & ->).
    cbn [negb]. fold diagnostic. rewrite (bind_ok _ _ _ _ _ Htry). reflexivity. }
  split; [exact Htry|]. split; [exact Hstep|].
  cbn [curated_loop]. rewrite (bind_ok _ _ _ _ _ Hstep). reflexivity.
Qed.

Lemma batch_failure_is_zero_balance_witness :
  exists w3,
    curated_step (sample_env (Raise (ExternalError "execution reverted")))
      sample_wallet true (sample_address, sample_metadata) [] empty_world
    = (Ok [], w3) /\
    curated_loop (sample_env (Raise (ExternalError "execution reverted")))
      sample_wallet true
      [(sample_address, sample_metadata); (plain_address, plain_metadata)] []
      empty_world
    = curated_loop (sample_env (Raise (ExternalError "execution reverted")))
        sample_wallet true [(plain_address, plain_metadata)] [] w3.
Proof.
  set (env := sample_env (Raise (ExternalError "execution reverted"))).
  run (get_contract env "0x5aAeb6053F3E94C9b9A09f33669435E7Ef1BeAed" "eth" "http"
         empty_world) as w1 Hk.
  assert (Hca : checksum_address sample_address "eth"
                = Ok "0x5aAeb6053F3E94C9b9A09f33669435E7Ef1BeAed")
    by (vm_compute; reflexivity).
  match type of Hk with
  | _ = (Ok ?k, _) =>
      run (batch_balance env k sample_wallet sample_metadata w1) as w2 Hfail;
      pose proof (batch_failure_is_zero_balance env sample_wallet sample_address
                    sample_metadata [] [(plain_address, plain_metadata)]
                    empty_world w1 w2 _ k _ eq_refl Hca Hk Hfail) as (_ & Hstep & Hloop)
  end.
  eexists. split; [exact Hstep | exact Hloop].
Defined.

Example batch_failure_keeps_other_holdings :
  fst (get_curated_nfts_holdings
         (sample_env_with
            [(sample_address, sample_metadata); (plain_address, plain_metadata)]
            (Raise (ExternalError "execution reverted")))
         sample_wallet true empty_world)
  = Ok [[("symbol", VStr "Y"); ("name", VStr "Bar"); ("fetch_batch", VBool false);
         ("balance", VInt 3);
         ("address", VStr "0xD1220A0cf47c7B9Be7A2E6BA89F429762e7b9aDb")]].
Proof. vm_compute. reflexivity. Qed.

(** ** Skipped batch contracts *)


Example skipped_batch_contract_calls :
  calls (snd (get_curated_nfts_holdings (sample_env (Ok [])) sample_wallet false
                empty_world))
  = [ExplorerGetAbi "eth" "0x5aAeb6053F3E94C9b9A09f33669435E7Ef1BeAed"].
Proof. vm_compute. reflexivity. Qed.



(** * Further properties *)

(** ** Which texts are addresses *)

Lemma lower_length s : String.length (lower s) = String.length s.
Proof. induction s as [|c r IH]; simpl; [|rewrite IH]; reflexivity. Qed.

Lemma remove_add_0x_prefix s : remove_0x_prefix (add_0x_prefix s) = remove_0x_prefix s.
Proof.
  unfold add_0x_prefix. destruct (is_0x_prefixed s) eqn:E; [reflexivity|].
  unfold remove_0x_prefix at 2. rewrite E. reflexivity.
Qed.

Lemma add_0x_prefix_lower s :
  add_0x_prefix (lower s) = "0x" ++ remove_0x_prefix (lower s).
Proof.
  unfold add_0x_prefix, remove_0x_prefix.
  destruct (is_0x_prefixed (lower s)) eqn:E; [|reflexivity].
  apply startswith_0x. rewrite prefixed_lower, <- is_0x_prefixed_lower. exact E.
Qed.

Lemma is_empty_length s : is_empty s = (String.length s =? 0)%nat.
Proof. destruct s; reflexivity. Qed.

Lemma valid_address_text_lower a :
  valid_address_text (lower a) = valid_address_text a.
Proof.
  unfold valid_address_text.
  rewrite remove_0x_prefix_lower, all_hex_lower, lower_length. reflexivity.
Qed.

(** Normalisation in closed form. *)
Lemma to_normalized_address_eq a :
  to_normalized_address a =
  if valid_address_text a then Ok ("0x" ++ lower (remove_0x_prefix a))
  else Raise ValueError.
Proof.
  unfold to_normalized_address, to_normalized_address_with, hexstr_if_str_to_hex.
  assert (Hadr : is_hex_address (lower (to_hex a)) = valid_address_text a).
  { unfold is_hex_address, is_hex, valid_address_text, to_hex.
    rewrite remove_0x_prefix_lower, remove_add_0x_prefix, remove_0x_prefix_lower,
      lower_idem, all_hex_lower, lower_length, is_empty_lower.
    destruct (is_empty (add_0x_prefix (lower a))) eqn:Ee; [|reflexivity].
    exfalso. rewrite add_0x_prefix_lower in Ee. discriminate Ee. }
  assert (Hfmt : is_checksum_formatted_address (lower (to_hex a)) = false).
  { unfold is_checksum_formatted_address.
    rewrite remove_0x_prefix_lower, lower_idem, String.eqb_refl.
    rewrite andb_false_r. reflexivity. }
  assert (Hlow : lower (to_hex a) = "0x" ++ lower (remove_0x_prefix a)).
  { unfold to_hex. rewrite add_0x_prefix_lower, lower_app, remove_0x_prefix_lower,
      lower_idem. reflexivity. }
  destruct (negb (is_empty (remove_0x_prefix a)) && negb (is_hex a)) eqn:Eraise.
  - apply andb_prop in Eraise as [Hne Hx].
    apply negb_true_iff in Hne, Hx.
    unfold valid_address_text. unfold is_hex in Hx.
    destruct a as [|c a]; [discriminate Hne|].
    cbn [is_empty negb andb] in Hx. rewrite Hx. reflexivity.
  - unfold is_address_with. rewrite Hfmt, Hadr, Hlow.
    destruct (valid_address_text a); reflexivity.
Qed.

(** Checksumming in closed form. *)
Lemma to_checksum_address_eq a :
  to_checksum_address a =
  if valid_address_text a then
    let d := lower (remove_0x_prefix a) in
    Ok ("0x" ++ checksum_digits 40 d (str_drop 2 (keccak_text d)))
  else Raise ValueError.
Proof.
  unfold to_checksum_address, to_checksum_address_with.
  fold to_normalized_address. rewrite to_normalized_address_eq.
  destruct (valid_address_text a) eqn:Hv; [|reflexivity].
  cbv zeta.
  change (remove_0x_prefix ("0x" ++ lower (remove_0x_prefix a)))
    with (lower (remove_0x_prefix a)).
  change (str_drop 2 ("0x" ++ lower (remove_0x_prefix a)))
    with (lower (remove_0x_prefix a)).
  set (d := lower (remove_0x_prefix a)).
  assert (Hd : all_hex d = true /\ String.length d = 40%nat /\ lower d = d).
  { unfold valid_address_text in Hv. apply andb_prop in Hv as [Hh Hl].
    apply Nat.eqb_eq in Hl. unfold d.
    rewrite all_hex_lower, lower_length, lower_idem. auto. }
  destruct Hd as (Hh & Hl & Hlow).
  pose proof (keccak_text_length d) as Hhash.
  assert (Hcd : lower (checksum_digits 40 d (str_drop 2 (keccak_text d))) = d).
  { apply checksum_digits_lower; [exact Hl | rewrite str_drop_length; lia | exact Hlow]. }
  assert (Hnp : is_0x_prefixed (checksum_digits 40 d (str_drop 2 (keccak_text d))) = false).
  { rewrite <- is_0x_prefixed_lower, Hcd. apply all_hex_not_prefixed, Hh. }
  unfold add_0x_prefix. rewrite Hnp. reflexivity.
Qed.

Lemma checksum_address_eq a chain :
  checksum_address a chain =
  if known_chain chain then to_checksum_address a else Raise (KeyError chain).
Proof.
  unfold checksum_address, web3_client. simpl.
  destruct (known_chain chain); reflexivity.
Qed.

(** X1: [checksum_address] succeeds exactly on a known chain and a text of
    forty hexadecimal digits with an optional [0x]/[0X] prefix.  The chain
    is looked up first: an unknown chain raises [KeyError] whatever the
    address is, and on a known chain any other text raises [ValueError]. *)
Theorem checksum_address_outcomes (a chain : string) :
  (known_chain chain = false -> checksum_address a chain = Raise (KeyError chain)) /\
  (known_chain chain = true -> valid_address_text a = false ->
   checksum_address a chain = Raise ValueError) /\
  (known_chain chain = true -> valid_address_text a = true ->
   exists c, checksum_address a chain = Ok c) /\
  (forall c, checksum_address a chain = Ok c ->
   known_chain chain = true /\ valid_address_text a = true).
Proof.
  rewrite checksum_address_eq, to_checksum_address_eq.
  repeat split.
  - intros ->. reflexivity.
  - intros -> ->. reflexivity.
  - intros -> ->. eexists. reflexivity.
  - destruct (known_chain chain); [reflexivity | discriminate].
  - destruct (known_chain chain); [|discriminate].
    destruct (valid_address_text a); [reflexivity | discriminate].
Qed.

Lemma checksum_address_outcomes_witness :
  checksum_address "0x5aaeb6053f3e94c9b9a09f33669435e7ef1beaed" "bsc"
    = Raise (KeyError "bsc") /\
  checksum_address "0x5aaeb6053f3e94c9b9a09f33669435e7ef1beae" "eth"
    = Raise ValueError /\
  exists c, checksum_address "5AAEB6053F3E94C9B9A09F33669435E7EF1BEAED" "polygon"
            = Ok c.
Proof.
  split; [|split].
  - apply (proj1 (checksum_address_outcomes _ "bsc")). reflexivity.
  - apply (proj1 (proj2 (checksum_address_outcomes _ "eth"))); reflexivity.
  - apply (proj1 (proj2 (proj2 (checksum_address_outcomes _ "polygon"))));
      reflexivity.
Defined.

Lemma checksum_digits_facts a :
  valid_address_text a = true ->
  let d := lower (remove_0x_prefix a) in
  lower (checksum_digits 40 d (str_drop 2 (keccak_text d))) = d /\
  all_hex d = true /\ String.length d = 40%nat.
Proof.
  intros Hv d. unfold valid_address_text in Hv. apply andb_prop in Hv as [Hh Hl].
  apply Nat.eqb_eq in Hl.
  assert (Hd : all_hex d = true /\ String.length d = 40%nat /\ lower d = d).
  { unfold d. rewrite all_hex_lower, lower_length, lower_idem. auto. }
  destruct Hd as (Hh' & Hl' & Hlow).
  split; [|auto].
  apply checksum_digits_lower; [exact Hl' | | exact Hlow].
  rewrite str_drop_length, keccak_text_length. lia.
Qed.

Lemma checksum_address_ok_eq a chain c :
  checksum_address a chain = Ok c ->
  known_chain chain = true /\ valid_address_text a = true /\
  c = "0x" ++ checksum_digits 40 (lower (remove_0x_prefix a))
               (str_drop 2 (keccak_text (lower (remove_0x_prefix a)))).
Proof.
  rewrite checksum_address_eq, to_checksum_address_eq.
  destruct (known_chain chain); [|discriminate].
  destruct (valid_address_text a); [|discriminate].
  cbv zeta. intros H. split; [reflexivity|]. split; [reflexivity|]. congruence.
Qed.

Lemma checksum_address_lower a chain c :
  checksum_address a chain = Ok c -> lower c = "0x" ++ lower (remove_0x_prefix a).
Proof.
  intros H. apply checksum_address_ok_eq in H as (_ & Hv & ->).
  destruct (checksum_digits_facts a Hv) as (Hlow & _ & _).
  rewrite lower_app, Hlow. reflexivity.
Qed.

(** X2: a checksummed address is [0x] followed by forty hexadecimal digits,
    and it is the input up to letter case and the prefix: checksumming never
    changes which address is meant. *)
Theorem checksum_address_shape (a chain c : string) :
  checksum_address a chain = Ok c ->
  String.length c = 42%nat /\
  startswith "0x" c = true /\
  all_hex (str_drop 2 c) = true /\
  lower c = "0x" ++ lower (remove_0x_prefix a).
Proof.
  intros H. apply checksum_address_ok_eq in H as (_ & Hv & ->).
  destruct (checksum_digits_facts a Hv) as (Hlow & Hh & Hl).
  set (d := lower (remove_0x_prefix a)) in *.
  set (cd := checksum_digits 40 d (str_drop 2 (keccak_text d))) in *.
  assert (Hlen : String.length cd = 40%nat)
    by (rewrite <- (lower_length cd), Hlow; exact Hl).
  repeat split.
  - change (S (S (String.length cd)) = 42%nat). rewrite Hlen. reflexivity.
  - change (all_hex cd = true). rewrite <- all_hex_lower, Hlow. exact Hh.
  - rewrite lower_app, Hlow. reflexivity.
Qed.

Lemma checksum_address_shape_witness :
  exists c,
    checksum_address "FB6916095CA1DF60BB79CE92CE3EA74C37C5D359" "eth" = Ok c /\
    String.length c = 42%nat /\
    lower c = "0xfb6916095ca1df60bb79ce92ce3ea74c37c5d359".
Proof.
  assert (E : checksum_address "FB6916095CA1DF60BB79CE92CE3EA74C37C5D359" "eth"
              = Ok "0xfB6916095ca1df60bB79Ce92cE3Ea74c37c5d359")
    by (vm_compute; reflexivity).
  pose proof (checksum_address_shape _ _ _ E) as (Hl & _ & _ & Hlow).
  eexists. split; [exact E|]. split; [exact Hl | exact Hlow].
Defined.

(** X3: two texts checksum to the same address exactly when they have the
    same digits up to letter case, with or without the prefix: different
    addresses never share a checksummed form, so they never share a cache
    file name. *)
Theorem checksum_address_same_iff (a b chain ca cb : string) :
  checksum_address a chain = Ok ca ->
  checksum_address b chain = Ok cb ->
  (ca = cb <-> lower (remove_0x_prefix a) = lower (remove_0x_prefix b)).
Proof.
  intros Ha Hb.
  pose proof (checksum_address_lower _ _ _ Ha) as Hla.
  pose proof (checksum_address_lower _ _ _ Hb) as Hlb.
  apply checksum_address_ok_eq in Ha as (_ & _ & ->).
  apply checksum_address_ok_eq in Hb as (_ & _ & ->).
  split.
  - intros E. rewrite E in Hla. rewrite Hla in Hlb. injection Hlb as Hd. exact Hd.
  - intros ->. reflexivity.
Qed.

Lemma checksum_address_same_iff_witness :
  checksum_address "0XD1220A0CF47C7B9BE7A2E6BA89F429762E7B9ADB" "eth"
  = checksum_address "d1220a0cf47c7b9be7a2e6ba89f429762e7b9adb" "eth" /\
  checksum_address "0xd1220a0cf47c7b9be7a2e6ba89f429762e7b9adb" "eth"
  <> checksum_address "0xd1220a0cf47c7b9be7a2e6ba89f429762e7b9adc" "eth".
Proof.
  assert (E1 : checksum_address "0XD1220A0CF47C7B9BE7A2E6BA89F429762E7B9ADB" "eth"
               = Ok "0xD1220A0cf47c7B9Be7A2E6BA89F429762e7b9aDb")
    by (vm_compute; reflexivity).
  destruct (checksum_address "d1220a0cf47c7b9be7a2e6ba89f429762e7b9adb" "eth")
    as [c2|e2] eqn:E2; [|vm_compute in E2; discriminate E2].
  assert (E3 : checksum_address "0xd1220a0cf47c7b9be7a2e6ba89f429762e7b9adb" "eth"
               = Ok "0xD1220A0cf47c7B9Be7A2E6BA89F429762e7b9aDb")
    by (vm_compute; reflexivity).
  destruct (checksum_address "0xd1220a0cf47c7b9be7a2e6ba89f429762e7b9adc" "eth")
    as [c4|e4] eqn:E4; [|vm_compute in E4; discriminate E4].
  split.
  - rewrite E1. f_equal.
    apply (proj2 (checksum_address_same_iff _ _ _ _ _ E1 E2)). reflexivity.
  - rewrite E3. intros [= Hc].
    pose proof (proj1 (checksum_address_same_iff _ _ _ _ _ E3 E4) Hc) as Hd.
    vm_compute in Hd. discriminate Hd.
Defined.

(** ** The ABI store, continued *)



(** X5: how a store fails.  When the file cannot be created the store
    raises [FileNotFoundError] and leaves the world as it was.  When the ABI
    is not text (the explorer's answer had no [result]) the file has already
    been created: the store raises [TypeError] and leaves an empty cache
    file behind, which [fetch_contract_abi] then returns. *)
Theorem store_contract_abi_failures
    (env : environment) (A : string) (abi : value) (w : world) :
  files w !! abi_path env A = None ->
  (can_create env (abi_path env A) = false ->
   store_contract_abi env A abi w = (Raise (FileNotFoundError (abi_path env A)), w)) /\
  (can_create env (abi_path env A) = true -> (forall text, abi <> VStr text) ->
   exists w1,
     store_contract_abi env A abi w = (Raise TypeError, w1) /\
     files w1 = <[abi_path env A := ""]> (files w) /\
     fetch_contract_abi env A w1 = (Ok (Some ""), w1)).
Proof.
  intros Habs. split.
  - intros Hcan. unfold store_contract_abi, bind, isfile, raise.
    rewrite Habs, Hcan. reflexivity.
  - intros Hcan Hnot. eexists. split; [|split].
    + unfold store_contract_abi, bind, isfile, write_file, raise.
      rewrite Habs, Hcan. cbn [negb].
      destruct abi; try reflexivity. destruct (Hnot s eq_refl).
    + reflexivity.
    + rewrite fetch_contract_abi_eq. cbn [files]. rewrite lookup_insert_eq.
      reflexivity.
Qed.

Lemma store_contract_abi_failures_witness :
  exists w1,
    store_contract_abi (sample_env (Ok [])) sample_address VNone empty_world
    = (Raise TypeError, w1) /\
    fetch_contract_abi (sample_env (Ok [])) sample_address w1 = (Ok (Some ""), w1).
Proof.
  destruct (proj2 (store_contract_abi_failures (sample_env (Ok [])) sample_address
                     VNone empty_world eq_refl) eq_refl)
    as (w1 & Hs & _ & Hf); [discriminate|].
  exists w1. split; [exact Hs | exact Hf].
Defined.

(** ** Resolving a contract, continued *)

Lemma web3_client_known chain provider :
  known_chain chain = true ->
  web3_client chain provider
  = Ok {| client_chain := chain;
          client_websocket := String.eqb provider "websocket" |}.
Proof.
  intros Hk. unfold web3_client. rewrite Hk.
  destruct (String.eqb provider "websocket") eqn:E.
  - apply String.eqb_eq in E. subst provider. reflexivity.
  - rewrite andb_false_r. reflexivity.
Qed.

(** The contract that [get_contract] builds from an ABI text. *)
Lemma bind_contract_eq env chain provider ca (v : value) w :
  known_chain chain = true ->
  (c <- lift (web3_client chain provider) ;;
   abi <- lift (py_json_loads env v) ;;
   ret {| contract_client := c; contract_address := ca; contract_abi := abi |})%prog w
  = (match py_json_loads env v with
     | Ok abi =>
         Ok {| contract_client :=
                 {| client_chain := chain;
                    client_websocket := String.eqb provider "websocket" |};
               contract_address := ca; contract_abi := abi |}
     | Raise e => Raise e
     end, w).
Proof.
  intros Hk. unfold bind, lift, ret. rewrite (web3_client_known _ _ Hk).
  destruct (py_json_loads env v); reflexivity.
Qed.

Lemma get_contract_hit_eq
    (env : environment) (a chain provider ca text : string) (w : world) :
  checksum_address a chain = Ok ca ->
  files w !! abi_path env ca = Some text ->
  text <> "" ->
  get_contract env a chain provider w
  = (match json_loads env text with
     | Ok abi =>
         Ok {| contract_client :=
                 {| client_chain := chain;
                    client_websocket := String.eqb provider "websocket" |};
               contract_address := ca; contract_abi := abi |}
     | Raise e => Raise e
     end, w).
Proof.
  intros Hca Hf Hne. destruct (checksum_address_known _ _ _ Hca) as [Hk _].
  rewrite (get_contract_eq env _ _ _ _ _ Hca), Hf.
  assert (Ht : truthy (value_of_text (Some text)) = true)
    by (destruct text; [destruct (Hne eq_refl) | reflexivity]).
  rewrite Ht. cbn [negb].
  rewrite (bind_ok (ret (value_of_text (Some text))) _ w _ w eq_refl).
  rewrite (bind_contract_eq env chain provider ca _ w Hk). reflexivity.
Qed.



(** X7: a cache miss is filled once.  When no file is cached and
    [get_contract] succeeds, the explorer was asked once for the checksummed
    address on the requested chain, its text is now the cached file (no
    other file changed), and if that text is not empty a second
    [get_contract] returns the same contract without sending, printing or
    writing anything. *)
Theorem get_contract_miss_fills_cache
    (env : environment) (a chain provider ca : string) (w w1 : world)
    (k : contract) :
  checksum_address a chain = Ok ca ->
  files w !! abi_path env ca = None ->
  get_contract env a chain provider w = (Ok k, w1) ->
  exists text,
    explorer_result env chain ca = Ok (VStr text) /\
    files w1 = <[abi_path env ca := text]> (files w) /\
    calls w1 = (calls w ++ [ExplorerGetAbi chain ca])%list /\
    (text <> "" -> get_contract env a chain provider w1 = (Ok k, w1)).
Proof.
  intros Hca Hf H. destruct (checksum_address_known _ _ _ Hca) as [Hk _].
  pose proof H as H0.
  rewrite (get_contract_eq env _ _ _ _ _ Hca), Hf in H.
  cbn [value_of_text truthy negb] in H.
  apply bind_ok_inv in H as (v & w2 & Hfetch & Hbuild).
  rewrite (bind_contract_eq env chain provider ca v w2 Hk) in Hbuild.
  unfold get_contract_abi, store_contract_abi in Hfetch. rewrite Hk in Hfetch.
  unfold bind, lift, ret, print, send, isfile, write_file, raise in Hfetch.
  cbn [files calls stdout] in Hfetch. rewrite Hf in Hfetch. cbn [negb] in Hfetch.
  destruct (explorer_result env chain ca) as [fetched|e]; [|discriminate].
  destruct (can_create env (abi_path env ca)); [|discriminate].
  destruct fetched as [| | |text| |]; try discriminate.
  injection Hfetch as <- Hw2. cbn [py_json_loads] in Hbuild.
  injection Hbuild as Hk' Hw1. subst w1.
  assert (Hfiles : files w2 = <[abi_path env ca := text]> (files w))
    by (rewrite <- Hw2; cbn [files]; apply insert_insert_eq).
  assert (Hcalls : calls w2 = (calls w ++ [ExplorerGetAbi chain ca])%list)
    by (rewrite <- Hw2; reflexivity).
  exists text. split; [reflexivity|]. split; [exact Hfiles|]. split; [exact Hcalls|].
  intros Hne.
  assert (Hhit : files w2 !! abi_path env ca = Some text)
    by (rewrite Hfiles; apply lookup_insert_eq).
  rewrite (get_contract_hit_eq env a chain provider ca text w2 Hca Hhit Hne).
  rewrite Hk'. reflexivity.
Qed.

Lemma get_contract_miss_fills_cache_witness :
  exists k w1,
    get_contract (sample_env (Ok [])) sample_address "eth" "http" empty_world
    = (Ok k, w1) /\
    calls w1 = [ExplorerGetAbi "eth" "0x5aAeb6053F3E94C9b9A09f33669435E7Ef1BeAed"] /\
    get_contract (sample_env (Ok [])) sample_address "eth" "http" w1 = (Ok k, w1).
Proof.
  run (get_contract (sample_env (Ok [])) sample_address "eth" "http" empty_world)
    as w1 E.
  assert (Hca : checksum_address sample_address "eth"
                = Ok "0x5aAeb6053F3E94C9b9A09f33669435E7Ef1BeAed")
    by (vm_compute; reflexivity).
  destruct (get_contract_miss_fills_cache (sample_env (Ok [])) sample_address "eth"
              "http" _ empty_world w1 _ Hca eq_refl E)
    as (text & Hx & _ & Hcalls & Hagain).
  cbn in Hx. injection Hx as <-.
  eexists. exists w1. split; [reflexivity|]. split; [exact Hcalls|].
  apply Hagain. discriminate.
Defined.

Lemma abi_path_cwd env env' a : cwd env' = cwd env -> abi_path env' a = abi_path env a.
Proof. intros H. unfold abi_path, CONTRACTS_STORAGE_PATH. rewrite H. reflexivity. Qed.

(** With an empty cache file [get_contract] asks the explorer and leaves
    the file as it is. *)
Lemma get_contract_empty_file env a chain provider ca w r w' :
  checksum_address a chain = Ok ca ->
  files w !! abi_path env ca = Some "" ->
  get_contract env a chain provider w = (r, w') ->
  files w' = files w /\
  calls w' = (calls w ++ [ExplorerGetAbi chain ca])%list /\
  (forall k, r = Ok k ->
     exists v, explorer_result env chain ca = Ok v /\
               py_json_loads env v = Ok (contract_abi k)).
Proof.
  intros Hca Hf H. destruct (checksum_address_known _ _ _ Hca) as [Hk _].
  rewrite (get_contract_eq env _ _ _ _ _ Hca), Hf in H.
  cbn [value_of_text truthy is_empty negb] in H.
  unfold get_contract_abi, store_contract_abi in H. rewrite Hk in H.
  unfold bind, lift, ret, print, send, isfile in H.
  cbv beta in H. cbn [files calls stdout] in H. rewrite Hf in H. cbn [negb] in H.
  rewrite (web3_client_known _ provider Hk) in H.
  destruct (explorer_result env chain ca) as [v|e].
  - destruct (py_json_loads env v) as [abi|e] eqn:Ej;
      injection H as <- <-; cbn [files calls];
      (split; [reflexivity|]); (split; [reflexivity|]); intros k Hr;
      [|discriminate].
    exists v. split; [reflexivity|]. injection Hr as <-. exact Ej.
  - injection H as <- <-. cbn [files calls].
    split; [reflexivity|]. split; [reflexivity|]. discriminate.
Qed.

(** X8: an empty cache file is never repaired.  When the cache file of the
    checksummed address exists but is empty, every [get_contract] asks the
    explorer again, builds the contract from the fetched answer, and leaves
    the file empty. *)
Theorem get_contract_empty_cache_file
    (env : environment) (a chain provider ca : string) (w w' : world)
    (r : result contract) :
  checksum_address a chain = Ok ca ->
  files w !! abi_path env ca = Some "" ->
  get_contract env a chain provider w = (r, w') ->
  files w' = files w /\
  calls w' = (calls w ++ [ExplorerGetAbi chain ca])%list /\
  (forall k, r = Ok k ->
     exists v, explorer_result env chain ca = Ok v /\
               py_json_loads env v = Ok (contract_abi k)).
Proof. apply get_contract_empty_file. Qed.

Lemma get_contract_empty_cache_file_witness :
  exists w0 r w',
    get_contract (sample_env (Ok [])) sample_address "eth" "http" w0 = (r, w') /\
    files w' = files w0 /\
    calls w' = [ExplorerGetAbi "eth" "0x5aAeb6053F3E94C9b9A09f33669435E7Ef1BeAed"].
Proof.
  pose (w0 := {| files := {[ abi_path (sample_env (Ok []))
                               "0x5aAeb6053F3E94C9b9A09f33669435E7Ef1BeAed" := "" ]};
                 calls := []; stdout := [] |}).
  destruct (get_contract (sample_env (Ok [])) sample_address "eth" "http" w0)
    as [r w'] eqn:E.
  assert (Hca : checksum_address sample_address "eth"
                = Ok "0x5aAeb6053F3E94C9b9A09f33669435E7Ef1BeAed")
    by (vm_compute; reflexivity).
  destruct (get_contract_empty_cache_file (sample_env (Ok [])) sample_address "eth"
              "http" _ w0 w' r Hca (lookup_singleton_eq _ _) E) as (Hf & Hc & _).
  exists w0, r, w'. split; [exact E|]. split; [exact Hf | exact Hc].
Defined.

(** X9: an explorer answer without text poisons the cache.  On a miss, when
    the explorer's answer is not text, [get_contract] raises [TypeError]
    after the empty cache file has been created; from then on no
    [get_contract], whatever the explorer answers, changes that file. *)
Theorem get_contract_poisons_cache
    (env : environment) (a chain provider ca : string) (v : value) (w : world) :
  checksum_address a chain = Ok ca ->
  files w !! abi_path env ca = None ->
  can_create env (abi_path env ca) = true ->
  explorer_result env chain ca = Ok v ->
  (forall text, v <> VStr text) ->
  exists w1,
    get_contract env a chain provider w = (Raise TypeError, w1) /\
    files w1 = <[abi_path env ca := ""]> (files w) /\
    forall env' provider' r2 w2,
      cwd env' = cwd env ->
      get_contract env' a chain provider' w1 = (r2, w2) ->
      files w2 = files w1 /\
      calls w2 = (calls w1 ++ [ExplorerGetAbi chain ca])%list.
Proof.
  intros Hca Hf Hcan Hx Hnot. destruct (checksum_address_known _ _ _ Hca) as [Hk _].
  assert (Hrun : exists w1,
            get_contract env a chain provider w = (Raise TypeError, w1) /\
            files w1 = <[abi_path env ca := ""]> (files w)).
  { rewrite (get_contract_eq env _ _ _ _ _ Hca), Hf.
    cbn [value_of_text truthy negb].
    unfold get_contract_abi, store_contract_abi. rewrite Hk.
    unfold bind, lift, ret, print, send, isfile, write_file, raise.
    cbv beta. cbn [files calls stdout]. rewrite Hf, Hx, Hcan. cbn [negb].
    destruct v as [| | |text| |]; try (eexists; split; reflexivity).
    destruct (Hnot text eq_refl). }
  destruct Hrun as (w1 & Hrun & Hfiles). exists w1.
  split; [exact Hrun|]. split; [exact Hfiles|].
  intros env' provider' r2 w2 Hcwd H2.
  assert (Hempty : files w1 !! abi_path env' ca = Some "")
    by (rewrite (abi_path_cwd _ _ _ Hcwd), Hfiles; apply lookup_insert_eq).
  destruct (get_contract_empty_file env' a chain provider' ca w1 r2 w2 Hca Hempty H2)
    as (H3 & H4 & _).
  split; [exact H3 | exact H4].
Qed.

Lemma get_contract_poisons_cache_witness :
  exists w1,
    get_contract (sample_env_explorer (Ok VNone)) sample_address "eth" "http"
      empty_world = (Raise TypeError, w1) /\
    forall r2 w2,
      get_contract (sample_env (Ok [])) sample_address "eth" "http" w1 = (r2, w2) ->
      files w2 = files w1.
Proof.
  assert (Hca : checksum_address sample_address "eth"
                = Ok "0x5aAeb6053F3E94C9b9A09f33669435E7Ef1BeAed")
    by (vm_compute; reflexivity).
  destruct (get_contract_poisons_cache (sample_env_explorer (Ok VNone))
              sample_address "eth" "http" _ VNone empty_world Hca eq_refl eq_refl
              eq_refl ltac:(discriminate)) as (w1 & Hrun & _ & Hlater).
  exists w1. split; [exact Hrun|].
  intros r2 w2 H2.
  exact (proj1 (Hlater (sample_env (Ok [])) "http" r2 w2 eq_refl H2)).
Defined.

(** ** The world only grows *)

Lemma grows_refl w : grows w w.
Proof. repeat split; reflexivity. Qed.

Lemma grows_trans w1 w2 w3 : grows w1 w2 -> grows w2 w3 -> grows w1 w3.
Proof.
  intros (F1 & C1 & S1) (F2 & C2 & S2).
  repeat split; etrans; eassumption.
Qed.

Lemma monotone_ret {A} (a : A) : monotone (ret a).
Proof. intros w r w' [= _ <-]. apply grows_refl. Qed.

Lemma monotone_lift {A} (x : result A) : monotone (lift x).
Proof. intros w r w' [= _ <-]. apply grows_refl. Qed.

Lemma monotone_raise {A} (e : exn) : monotone (@raise A e).
Proof. intros w r w' [= _ <-]. apply grows_refl. Qed.

Lemma monotone_send c : monotone (send c).
Proof.
  intros w r w' [= _ <-]. repeat split; cbn [files calls stdout];
    [reflexivity | apply prefix_app_r; reflexivity | reflexivity].
Qed.

Lemma monotone_print l : monotone (print l).
Proof.
  intros w r w' [= _ <-]. repeat split; cbn [files calls stdout];
    [reflexivity | reflexivity | apply prefix_app_r; reflexivity].
Qed.

Lemma monotone_bind {A B} (m : M A) (f : A -> M B) :
  monotone m -> (forall a, monotone (f a)) -> monotone (bind m f).
Proof.
  intros Hm Hf w r w' H. apply bind_inv in H as [(e & H & _)|(a & w1 & H1 & H2)].
  - exact (Hm _ _ _ H).
  - eapply grows_trans; [exact (Hm _ _ _ H1) | exact (Hf a _ _ _ H2)].
Qed.

Lemma monotone_try_except {A} (m : M A) (h : exn -> M A) :
  monotone m -> (forall e, monotone (h e)) -> monotone (try_except m h).
Proof.
  intros Hm Hh w r w' H. unfold try_except in H.
  destruct (m w) as [[a|e] w1] eqn:E.
  - injection H as _ <-. exact (Hm _ _ _ E).
  - eapply grows_trans; [exact (Hm _ _ _ E) | exact (Hh e _ _ _ H)].
Qed.

Lemma monotone_mapM {A B} (f : A -> M B) l :
  (forall a, monotone (f a)) -> monotone (mapM f l).
Proof.
  intros Hf. induction l as [|a l IH]; cbn [mapM].
  - apply monotone_ret.
  - apply monotone_bind; [apply Hf|]. intros b.
    apply monotone_bind; [exact IH|]. intros bs. apply monotone_ret.
Qed.

Section Monotone.

Variable env : environment.

Lemma monotone_fetch_contract_abi a : monotone (fetch_contract_abi env a).
Proof.
  intros w r w' H. rewrite fetch_contract_abi_eq in H. injection H as _ <-.
  apply grows_refl.
Qed.

(** The store writes only where no file was. *)
Lemma monotone_store_contract_abi a abi : monotone (store_contract_abi env a abi).
Proof.
  intros w r w' H.
  unfold store_contract_abi, bind, isfile, write_file, ret, raise in H.
  cbv beta in H. cbn [files calls stdout] in H.
  destruct (files w !! abi_path env a) eqn:Hf; cbn [negb] in H.
  - injection H as _ <-. apply grows_refl.
  - destruct (can_create env (abi_path env a)).
    + assert (Hsub : forall text, files w ⊆ <[abi_path env a := text]> (files w))
        by (intros text; apply insert_subseteq, Hf).
      destruct abi; injection H as _ <-; repeat split; cbn [files calls stdout];
        rewrite ?insert_insert_eq; auto; reflexivity.
    + injection H as _ <-. apply grows_refl.
Qed.

Ltac mono :=
  repeat first
    [ apply monotone_ret | apply monotone_lift | apply monotone_raise
    | apply monotone_send | apply monotone_print
    | apply monotone_fetch_contract_abi | apply monotone_store_contract_abi
    | apply monotone_bind; [|intros ?]
    | apply monotone_try_except; [|intros ?]
    | apply monotone_mapM; intros ?
    | match goal with
      | |- monotone (if ?b then _ else _) => destruct b
      | |- monotone (match ?x with _ => _ end) => destruct x
      end ].

Lemma monotone_get_contract_abi a chain : monotone (get_contract_abi env a chain).
Proof. unfold get_contract_abi. mono. Qed.

Lemma monotone_get_contract a chain provider :
  monotone (get_contract env a chain provider).
Proof. unfold get_contract. mono. apply monotone_get_contract_abi. Qed.

Lemma monotone_get_latest_block_number chain :
  monotone (get_latest_block_number env chain).
Proof. unfold get_latest_block_number. mono. Qed.

Lemma monotone_get_events a ev tok start eb chain topics :
  monotone (get_events env a ev tok start eb chain topics).
Proof.
  unfold get_events, get_events_request. mono;
    first [apply monotone_get_contract | apply monotone_get_latest_block_number].
Qed.

Lemma monotone_decode_contract_transaction h chain :
  monotone (decode_contract_transaction env h chain).
Proof. unfold decode_contract_transaction. mono; apply monotone_get_contract. Qed.

Lemma monotone_get_nft_holdings wallet a md :
  monotone (get_nft_holdings env wallet a md).
Proof. unfold get_nft_holdings. mono; apply monotone_get_contract. Qed.

Lemma monotone_curated_step wallet ib entry holdings :
  monotone (curated_step env wallet ib entry holdings).
Proof.
  unfold curated_step, batch_balance. mono; apply monotone_get_contract.
Qed.

Lemma monotone_curated_loop wallet ib entries :
  forall holdings, monotone (curated_loop env wallet ib entries holdings).
Proof.
  induction entries as [|entry rest IH]; intros holdings; cbn [curated_loop].
  - apply monotone_ret.
  - apply monotone_bind; [apply monotone_curated_step | intros hs; apply IH].
Qed.

Lemma monotone_get_curated_nfts_holdings wallet ib :
  monotone (get_curated_nfts_holdings env wallet ib).
Proof.
  unfold get_curated_nfts_holdings, fetch_curated_contracts.
  mono. apply monotone_curated_loop.
Qed.

End Monotone.

(** X10: the helpers only add to the world, however they end.  Whether
    [get_contract], [get_events], [decode_contract_transaction],
    [get_nft_holdings] or [get_curated_nfts_holdings] returns or raises,
    every cache file that existed is still there with the same content, and
    the requests and printed lines recorded before are a prefix of those
    recorded after. *)
Theorem helpers_only_grow_the_world (env : environment) :
  (forall a chain provider, monotone (get_contract env a chain provider)) /\
  (forall a ev tok start eb chain topics,
     monotone (get_events env a ev tok start eb chain topics)) /\
  (forall h chain, monotone (decode_contract_transaction env h chain)) /\
  (forall wallet a md, monotone (get_nft_holdings env wallet a md)) /\
  (forall wallet ib, monotone (get_curated_nfts_holdings env wallet ib)).
Proof.
  split; [intros; apply monotone_get_contract|].
  split; [intros; apply monotone_get_events|].
  split; [intros; apply monotone_decode_contract_transaction|].
  split; [intros; apply monotone_get_nft_holdings|].
  intros; apply monotone_get_curated_nfts_holdings.
Qed.

(** ** Event queries, continued *)

Lemma mapM_lift_inv {A B} (g : A -> result B) l w bs w' :
  mapM (fun a => lift (g a)) l w = (Ok bs, w') ->
  Forall2 (fun a b => g a = Ok b) l bs /\ w' = w.
Proof.
  revert bs w'. induction l as [|a l IH]; intros bs w' H; cbn [mapM] in H.
  - unfold ret in H. injection H as <- <-. split; [constructor | reflexivity].
  - step H as b w1 Hb. step H as bs' w2 Hbs. unfold ret in H.
    injection H as <- <-. apply IH in Hbs as [Hall ->].
    split; [constructor; assumption | reflexivity].
Qed.

(** X11: the events are the logs, decoded in the order the node returned
    them.  A successful [get_events] made one log query, as its last
    request, with the parameters built from its filter request, and returns
    exactly one decoded event per log, in the same order. *)
Theorem get_events_decodes_logs_in_order
    (env : environment) (address event_name : string) (token_id : value)
    (start_block : Z) (end_block : value) (chain : string)
    (topics : option (list value)) (w w' : world) (events : list value) :
  get_events env address event_name token_id start_block end_block chain topics w
  = (Ok events, w') ->
  exists request w1 built c logs,
    get_events_request env address event_name token_id start_block end_block
      chain topics w = (Ok request, w1) /\
    construct_event_filter_params env request = Ok built /\
    web3_client chain "http" = Ok c /\
    node_get_logs env c (snd built) = Ok logs /\
    calls w' = (calls w1 ++ [EthGetLogs c (snd built)])%list /\
    Forall2 (fun log event => get_event_data env (fr_event_abi request) log = Ok event)
      logs events.
Proof.
  intros H. unfold get_events in H.
  apply bind_ok_inv in H as (request & w1 & Hreq & H).
  step H as built w2 Hbuilt. step H as u w3 Hprint.
  step H as c w4 Hc. step H as u2 w5 Hsend. step H as logs w6 Hlogs.
  apply mapM_lift_inv in H as [Hall ->].
  unfold print in Hprint. injection Hprint as <-.
  unfold send in Hsend. injection Hsend as <-.
  exists request, w1, built, c, logs. repeat split; auto.
Qed.

Lemma get_events_decodes_logs_in_order_witness :
  exists events w',
    get_events (sample_env (Ok [])) sample_address "Transfer" VNone 0
      (VStr "latest") "polygon" None empty_world = (Ok events, w') /\
    events = [VStr "log"].
Proof.
  run (get_events (sample_env (Ok [])) sample_address "Transfer" VNone 0
         (VStr "latest") "polygon" None empty_world) as w' E.
  destruct (get_events_decodes_logs_in_order _ _ _ _ _ _ _ _ _ _ _ E)
    as (request & w1 & built & c & logs & _ & _ & _ & Hlogs & _ & Hall).
  cbn in Hlogs. injection Hlogs as <-.
  eexists. exists w'. split; reflexivity.
Defined.

Lemma only_sends_ret {A} ok (a : A) : only_sends ok (ret a).
Proof. intros w r w' [= _ <-]. exists []. rewrite app_nil_r. auto. Qed.

Lemma only_sends_lift {A} ok (x : result A) : only_sends ok (lift x).
Proof. intros w r w' [= _ <-]. exists []. rewrite app_nil_r. auto. Qed.

Lemma only_sends_raise {A} ok (e : exn) : only_sends ok (@raise A e).
Proof. intros w r w' [= _ <-]. exists []. rewrite app_nil_r. auto. Qed.

Lemma only_sends_print ok l : only_sends ok (print l).
Proof. intros w r w' [= _ <-]. exists []. rewrite app_nil_r. auto. Qed.

Lemma only_sends_send (ok : net_call -> Prop) c : ok c -> only_sends ok (send c).
Proof. intros Hc w r w' [= _ <-]. exists [c]. split; [reflexivity | auto]. Qed.

Lemma only_sends_bind {A B} ok (m : M A) (f : A -> M B) :
  only_sends ok m -> (forall a, only_sends ok (f a)) -> only_sends ok (bind m f).
Proof.
  intros Hm Hf w r w' H. apply bind_inv in H as [(e & H & _)|(a & w1 & H1 & H2)].
  - exact (Hm _ _ _ H).
  - destruct (Hm _ _ _ H1) as (s1 & E1 & F1).
    destruct (Hf a _ _ _ H2) as (s2 & E2 & F2).
    exists (s1 ++ s2)%list. split; [|apply Forall_app; auto].
    rewrite E2, E1, app_assoc. reflexivity.
Qed.

Lemma only_sends_try_except {A} ok (m : M A) (h : exn -> M A) :
  only_sends ok m -> (forall e, only_sends ok (h e)) -> only_sends ok (try_except m h).
Proof.
  intros Hm Hh w r w' H. unfold try_except in H.
  destruct (m w) as [[a|e] w1] eqn:E.
  - injection H as _ <-. exact (Hm _ _ _ E).
  - destruct (Hm _ _ _ E) as (s1 & E1 & F1).
    destruct (Hh e _ _ _ H) as (s2 & E2 & F2).
    exists (s1 ++ s2)%list. split; [|apply Forall_app; auto].
    rewrite E2, E1, app_assoc. reflexivity.
Qed.

Lemma only_sends_mapM {A B} ok (f : A -> M B) l :
  (forall a, only_sends ok (f a)) -> only_sends ok (mapM f l).
Proof.
  intros Hf. induction l as [|a l IH]; cbn [mapM].
  - apply only_sends_ret.
  - apply only_sends_bind; [apply Hf|]. intros b.
    apply only_sends_bind; [exact IH|]. intros bs. apply only_sends_ret.
Qed.

(** [get_contract] on ["eth"] asks nobody but the explorer, for ["eth"]. *)
Lemma only_sends_get_contract_eth env (ok : net_call -> Prop) a provider :
  (forall ca, ok (ExplorerGetAbi "eth" ca)) ->
  only_sends ok (get_contract env a "eth" provider).
Proof.
  intros Hok w r w' H.
  apply get_contract_calls in H as [H|(ca & _ & H)].
  - exists []. rewrite app_nil_r. auto.
  - exists [ExplorerGetAbi "eth" ca]. auto.
Qed.

Lemma only_sends_bind_lift {A B} ok (x : result A) (f : A -> M B) :
  (forall a, x = Ok a -> only_sends ok (f a)) -> only_sends ok (bind (lift x) f).
Proof.
  intros Hf w r w' H. unfold bind, lift in H. destruct x as [a|e].
  - exact (Hf a eq_refl _ _ _ H).
  - injection H as _ <-. exists []. rewrite app_nil_r. auto.
Qed.

Ltac sends :=
  repeat first
    [ apply only_sends_ret | apply only_sends_lift | apply only_sends_raise
    | apply only_sends_print
    | apply only_sends_bind_lift; intros ? ?
    | apply only_sends_bind; [|intros ?]
    | apply only_sends_try_except; [|intros ?]
    | apply only_sends_mapM; intros ?
    | match goal with
      | |- only_sends _ (if ?b then _ else _) => destruct b
      | |- only_sends _ (match ?x with _ => _ end) => destruct x
      end ].

Opaque get_contract.

(** X12: an event query on another chain still resolves its contract on
    ["eth"].  Whatever [chain] is requested and however [get_events] ends,
    the only requests it makes are the explorer's ABI request for ["eth"]
    and the head and log queries on the HTTP client of [chain]: the ABI is
    never looked up on the requested chain, and no other node is asked. *)
Theorem get_events_requests
    (env : environment) (address event_name : string) (token_id : value)
    (start_block : Z) (end_block : value) (chain : string)
    (topics : option (list value)) :
  only_sends (event_query_call chain)
    (get_events env address event_name token_id start_block end_block chain topics).
Proof.
  unfold get_events, get_events_request, get_latest_block_number.
  sends;
    match goal with
    | |- only_sends _ (get_contract _ _ _ _) =>
        apply only_sends_get_contract_eth; intros ca; left; eauto
    | H : web3_client chain "http" = Ok ?c |- only_sends _ (send (EthBlockNumber ?c)) =>
        apply only_sends_send; right; left;
        apply web3_client_http in H; subst; reflexivity
    | H : web3_client chain "http" = Ok ?c |- only_sends _ (send (EthGetLogs ?c _)) =>
        apply only_sends_send; right; right;
        apply web3_client_http in H; subst; eauto
    end.
Qed.

Transparent get_contract.

Lemma get_events_requests_witness :
  calls (snd (get_events (sample_env (Ok [])) sample_address "Transfer" VNone
                (-5) (VStr "latest") "polygon" None empty_world))
  = [ExplorerGetAbi "eth" "0x5aAeb6053F3E94C9b9A09f33669435E7Ef1BeAed";
     EthBlockNumber {| client_chain := "polygon"; client_websocket := false |};
     EthGetLogs {| client_chain := "polygon"; client_websocket := false |}
       (VDict [("fromBlock", VInt 995); ("toBlock", VStr "latest")])] /\
  Forall (event_query_call "polygon")
    (calls (snd (get_events (sample_env (Ok [])) sample_address "Transfer" VNone
                   (-5) (VStr "latest") "polygon" None empty_world))).
Proof.
  split; [vm_compute; reflexivity|].
  destruct (get_events (sample_env (Ok [])) sample_address "Transfer" VNone
              (-5) (VStr "latest") "polygon" None empty_world) as [r w'] eqn:E.
  destruct (get_events_requests _ _ _ _ _ _ _ _ _ _ _ E) as (sent & Hs & Hall).
  cbn [snd]. rewrite Hs. exact Hall.
Defined.

(** ** Argument filters *)

Lemma topic_key_ne (i j : nat) :
  i <> j -> String.eqb ("topic" ++ pretty i) ("topic" ++ pretty j) = false.
Proof.
  intros Hne. apply String.eqb_neq. intros H. apply Hne.
  injection H as H. exact (inj pretty _ _ H).
Qed.

Lemma add_topics_other topics key : forall index filters,
  (forall i : nat, String.eqb ("topic" ++ pretty i) key = false) ->
  dict_get (add_topics index topics filters) key = dict_get filters key.
Proof.
  induction topics as [|topic rest IH]; intros index filters Hkey; cbn [add_topics];
    [reflexivity|].
  rewrite IH by exact Hkey. destruct (truthy topic); [|reflexivity].
  apply dict_get_set_ne, Hkey.
Qed.

Lemma topic_at_cons t rest j : topic_at (t :: rest) (S j) = topic_at rest j.
Proof. reflexivity. Qed.

Lemma add_topics_lookup topics : forall (n : nat) filters (i : nat),
  dict_get (add_topics n topics filters) ("topic" ++ pretty i)
  = match (if (n <=? i)%nat then topic_at topics (i - n) else None) with
    | Some t => Some t
    | None => dict_get filters ("topic" ++ pretty i)
    end.
Proof.
  induction topics as [|topic rest IH]; intros n filters i; cbn [add_topics].
  - unfold topic_at. rewrite lookup_nil. destruct (n <=? i)%nat; reflexivity.
  - rewrite IH.
    destruct (n <=? i)%nat eqn:Eni; [apply Nat.leb_le in Eni | apply Nat.leb_gt in Eni].
    + destruct (decide (i = n)) as [->|Hne].
      * replace (S n <=? n)%nat with false by (symmetry; apply Nat.leb_gt; lia).
        rewrite Nat.sub_diag. unfold topic_at. cbn [lookup list_lookup].
        destruct (truthy topic); [apply dict_get_set_eq | reflexivity].
      * replace (S n <=? i)%nat with true by (symmetry; apply Nat.leb_le; lia).
        replace (i - n)%nat with (S (i - S n)) by lia.
        rewrite topic_at_cons.
        destruct (topic_at rest (i - S n)); [reflexivity|].
        destruct (truthy topic); [|reflexivity].
        apply dict_get_set_ne, topic_key_ne. lia.
    + replace (S n <=? i)%nat with false by (symmetry; apply Nat.leb_gt; lia).
      destruct (truthy topic); [|reflexivity].
      apply dict_get_set_ne, topic_key_ne. lia.
Qed.

(** X13: what the argument filters of an event query hold.  The filters
    always carry the checksummed contract address under [address], and the
    topic given at position [i] is filed under [topic<i>] exactly when it is
    truthy: [None] and empty topics leave their position out without
    shifting the others. *)
Theorem get_events_argument_filters
    (env : environment) (address event_name : string) (token_id : value)
    (start_block : Z) (end_block : value) (chain : string)
    (topics : option (list value)) (w w' : world) (request : filter_request) :
  get_events_request env address event_name token_id start_block end_block
    chain topics w = (Ok request, w') ->
  exists ca,
    checksum_address address "eth" = Ok ca /\
    dict_get (fr_argument_filters request) "address" = Some (VStr ca) /\
    fr_address request = Some (VStr ca) /\
    forall i : nat, dict_get (fr_argument_filters request) ("topic" ++ pretty i)
                    = topic_at (default [] topics) i.
Proof.
  intros Hreq. unfold get_events_request in Hreq.
  step Hreq as c0 w0 Hc0. step Hreq as ca w1 Hca.
  step Hreq as k w2 Hk. step Hreq as abi w3 Habi.
  step Hreq as start w4 Hstart. unfold ret in Hreq. simplify_eq.
  cbn [fr_argument_filters fr_address].
  pose (base := if truthy token_id
                then dict_set [("address", VStr ca)] "tokenId" token_id
                else [("address", VStr ca)]).
  assert (Hbase_addr : dict_get base "address" = Some (VStr ca))
    by (unfold base; destruct (truthy token_id); reflexivity).
  assert (Hbase_topic : forall i : nat, dict_get base ("topic" ++ pretty i) = None)
    by (intros i; unfold base; destruct (truthy token_id); reflexivity).
  match goal with
  | |- exists _, _ /\ dict_get ?F "address" = _ /\ _ =>
      assert (Hfilters : F = add_topics 0 (default [] topics) base)
        by (destruct topics as [[|t ts]|]; reflexivity);
      rewrite Hfilters
  end.
  assert (Haddr : dict_get (add_topics 0 (default [] topics) base) "address"
                  = Some (VStr ca)).
  { rewrite add_topics_other; [exact Hbase_addr|]. intros i. reflexivity. }
  exists ca. split; [exact Hca|]. split; [exact Haddr|]. split; [exact Haddr|].
  intros i. rewrite add_topics_lookup. cbn [Nat.leb].
  rewrite Nat.sub_0_r, Hbase_topic. destruct (topic_at _ i); reflexivity.
Qed.

Lemma get_events_argument_filters_witness :
  exists request w',
    get_events_request (sample_env (Ok [])) sample_address "Transfer" VNone 0
      (VStr "latest") "eth" (Some [VNone; VStr "0xaa"; VStr ""; VStr "0xbb"])
      empty_world = (Ok request, w') /\
    fr_argument_filters request
    = [("address", VStr "0x5aAeb6053F3E94C9b9A09f33669435E7Ef1BeAed");
       ("topic1", VStr "0xaa"); ("topic3", VStr "0xbb")] /\
    dict_get (fr_argument_filters request) ("topic" ++ pretty 2%nat) = None.
Proof.
  run (get_events_request (sample_env (Ok [])) sample_address "Transfer" VNone 0
         (VStr "latest") "eth" (Some [VNone; VStr "0xaa"; VStr ""; VStr "0xbb"])
         empty_world) as w' E.
  destruct (get_events_argument_filters _ _ _ _ _ _ _ _ _ _ _ E)
    as (ca & _ & _ & _ & Htopic).
  eexists. exists w'. split; [reflexivity|]. split; [reflexivity|].
  exact (Htopic 2%nat).
Defined.

(** ** Holdings, continued *)

Lemma make_holding_fields d b symbol name a :
  dict_get (make_holding d b symbol name a) "address" = Some (VStr a) /\
  dict_get (make_holding d b symbol name a) "symbol" = Some symbol /\
  dict_get (make_holding d b symbol name a) "name" = Some name /\
  forall key, holding_key key = false ->
    dict_get (make_holding d b symbol name a) key = dict_get d key.
Proof.
  unfold make_holding, dict_update. cbn [fold_left fst snd].
  split; [apply dict_get_set_eq|].
  split; [rewrite !dict_get_set_ne by reflexivity; apply dict_get_set_eq|].
  split; [rewrite !dict_get_set_ne by reflexivity; apply dict_get_set_eq|].
  intros key Hkey. unfold holding_key in Hkey.
  apply orb_false_elim in Hkey as [Hkey Ha].
  apply orb_false_elim in Hkey as [Hkey Hn].
  apply orb_false_elim in Hkey as [Hb Hs].
  rewrite String.eqb_sym in Ha, Hn, Hs, Hb.
  rewrite !dict_get_set_ne by assumption. reflexivity.
Qed.

(** X14: [get_nft_holdings] needs metadata, and says so late.  With falsy
    metadata ([None], an empty dict) it never returns and never asks a node
    for a balance; the contract is resolved first, so the ABI may already
    have been fetched from the explorer when ["kinda need some metadata
    here"] is raised. *)
Theorem get_nft_holdings_needs_metadata
    (env : environment) (wallet a : string) (md : value) (w w' : world)
    (r : result (option dict)) :
  truthy md = false ->
  get_nft_holdings env wallet a md w = (r, w') ->
  (exists e, r = Raise e) /\
  (exists sent, calls w' = (calls w ++ sent)%list /\
                Forall (fun x => is_node_call x = false) sent) /\
  (forall wa ca k w1,
     checksum_address wallet "eth" = Ok wa ->
     checksum_address a "eth" = Ok ca ->
     get_contract env ca "eth" "http" w = (Ok k, w1) ->
     r = Raise (PlainException "kinda need some metadata here") /\ w' = w1).
Proof.
  intros Hmd H. unfold get_nft_holdings in H. rewrite Hmd in H. cbn [negb] in H.
  split; [|split].
  - apply bind_inv in H as [(e & _ & ->)|(wa & w0 & _ & H)]; [eauto|].
    apply bind_inv in H as [(e & _ & ->)|(ca & w1 & _ & H)]; [eauto|].
    apply bind_inv in H as [(e & _ & ->)|(k & w2 & _ & H)]; [eauto|].
    unfold raise in H. injection H as <- _. eauto.
  - revert w r w' H.
    change (only_sends (fun x => is_node_call x = false)
              (wallet_address <- lift (checksum_address wallet "eth") ;;
               contract_address <- lift (checksum_address a "eth") ;;
               contract <- get_contract env contract_address "eth" "http" ;;
               @raise (option dict)
                 (PlainException "kinda need some metadata here"))%prog).
    apply only_sends_bind_lift; intros wa _.
    apply only_sends_bind_lift; intros ca _.
    apply only_sends_bind; [|intros k; apply only_sends_raise].
    apply only_sends_get_contract_eth. reflexivity.
  - intros wa ca k w1 Hwa Hca Hk.
    rewrite (bind_ok (lift (checksum_address wallet "eth")) _ w wa w) in H
      by (unfold lift; rewrite Hwa; reflexivity).
    rewrite (bind_ok (lift (checksum_address a "eth")) _ w ca w) in H
      by (unfold lift; rewrite Hca; reflexivity).
    rewrite (bind_ok _ _ _ _ _ Hk) in H.
    unfold raise in H. injection H as <- <-. auto.
Qed.

Lemma get_nft_holdings_needs_metadata_witness :
  exists w',
    get_nft_holdings (sample_env (Ok [])) sample_wallet sample_address (VDict [])
      empty_world
    = (Raise (PlainException "kinda need some metadata here"), w') /\
    exists sent, calls w' = sent /\ Forall (fun x => is_node_call x = false) sent.
Proof.
  run (get_nft_holdings (sample_env (Ok [])) sample_wallet sample_address
         (VDict []) empty_world) as w' E.
  destruct (get_nft_holdings_needs_metadata (sample_env (Ok [])) sample_wallet
              sample_address (VDict []) empty_world w' _ eq_refl E)
    as (_ & (sent & Hs & Hall) & _).
  exists w'. split; [reflexivity|]. exists sent. split; [exact Hs | exact Hall].
Defined.

(** X15: what a holding carries.  A holding returned by [get_nft_holdings]
    has the checksummed contract address under [address], the metadata's
    [symbol] and [name] (or [None] when the metadata lacks them), and every
    other metadata entry unchanged; only [balance], [symbol], [name] and
    [address] are set by the helper. *)
Theorem get_nft_holdings_contents
    (env : environment) (wallet a : string) (md : value) (w w' : world)
    (h : dict) :
  get_nft_holdings env wallet a md w = (Ok (Some h), w') ->
  exists d ca,
    md = VDict d /\
    checksum_address a "eth" = Ok ca /\
    dict_get h "address" = Some (VStr ca) /\
    dict_get h "symbol" = Some (default VNone (dict_get d "symbol")) /\
    dict_get h "name" = Some (default VNone (dict_get d "name")) /\
    forall key, holding_key key = false -> dict_get h key = dict_get d key.
Proof.
  intros H. unfold get_nft_holdings in H.
  step H as wa w0 Hwa. step H as ca w1 Hca. step H as k w2 Hk.
  destruct (truthy md); cbn [negb] in H; [|discriminate].
  step H as symbol w3 Hsym. step H as name w4 Hname.
  step H as u w5 Hsend. step H as b w6 Hb.
  destruct (b <=? 0)%Z; [discriminate|].
  step H as d w7 Hd. unfold ret in H. injection H as <- _.
  destruct md; try discriminate. injection Hd as ->.
  injection Hsym as <-. injection Hname as <-.
  exists d, ca. split; [reflexivity|]. split; [exact Hca|].
  apply make_holding_fields.
Qed.

Lemma get_nft_holdings_contents_witness :
  exists h w',
    get_nft_holdings (sample_env (Ok [])) sample_wallet plain_address
      plain_metadata empty_world = (Ok (Some h), w') /\
    h = [("symbol", VStr "Y"); ("name", VStr "Bar"); ("fetch_batch", VBool false);
         ("balance", VInt 3);
         ("address", VStr "0xD1220A0cf47c7B9Be7A2E6BA89F429762e7b9aDb")] /\
    dict_get h "fetch_batch" = Some (VBool false).
Proof.
  run (get_nft_holdings (sample_env (Ok [])) sample_wallet plain_address
         plain_metadata empty_world) as w' E.
  destruct (get_nft_holdings_contents _ _ _ _ _ _ _ E)
    as (d & ca & Hd & _ & _ & _ & _ & Hpass).
  injection Hd as <-.
  eexists. exists w'. split; [reflexivity|]. split; [reflexivity|].
  exact (Hpass "fetch_batch" eq_refl).
Defined.

Section Order.

Variable env : environment.

Lemma curated_step_inv wallet ib entry holdings w hs w' :
  curated_step env wallet ib entry holdings w = (Ok hs, w') ->
  hs = holdings \/
  exists h, hs = (holdings ++ [h])%list /\ holding_address h = entry_address entry.
Proof.
  intros H. unfold curated_step in H.
  step H as ca w0 Hca. step H as k w1 Hk.
  step H as symbol w2 Hsym. step H as name w3 Hname.
  assert (Hfin : forall b wz,
            (if (0 <? b)%Z then
               metadata <- lift (metadata_dict (snd entry)) ;;
               ret (holdings ++ [make_holding metadata b symbol name ca])%list
             else ret holdings) wz = (Ok hs, w') ->
            hs = holdings \/
            exists h, hs = (holdings ++ [h])%list /\
                      holding_address h = entry_address entry).
  { intros b wz Hf. apply finish_inv in Hf as [_ [[_ ->]|(_ & d & _ & ->)]].
    - left. reflexivity.
    - right. eexists. split; [reflexivity|].
      unfold holding_address, entry_address. rewrite Hca.
      apply make_holding_fields. }
  destruct (is_fetch_batch (snd entry)).
  - destruct ib; cbn [negb] in H.
    + step H as b w4 Hb. eapply Hfin; exact H.
    + unfold ret in H. injection H as <- _. left. reflexivity.
  - step H as u w4 Hsend. step H as b w5 Hb. eapply Hfin; exact H.
Qed.

Lemma curated_loop_order wallet ib entries : forall holdings w hs w',
  curated_loop env wallet ib entries holdings w = (Ok hs, w') ->
  exists new, hs = (holdings ++ new)%list /\
              map holding_address new `sublist_of` map entry_address entries.
Proof.
  induction entries as [|entry rest IH]; intros holdings w hs w' H.
  - unfold curated_loop, ret in H. injection H as <- _.
    exists []. rewrite app_nil_r. split; [reflexivity | constructor].
  - cbn [curated_loop] in H. apply bind_ok_inv in H as (hs1 & w1 & Hstep & H).
    apply IH in H as (new & -> & Hsub).
    apply curated_step_inv in Hstep as [->|(h & -> & Hh)].
    + exists new. split; [reflexivity|]. cbn [map]. apply sublist_cons, Hsub.
    + exists (h :: new). rewrite <- app_assoc. split; [reflexivity|].
      cbn [map]. rewrite Hh. apply sublist_skip, Hsub.
Qed.

End Order.

(** X16: the holdings follow the order of the curated list.  The addresses
    of the holdings [get_curated_nfts_holdings] returns are, in order, a
    subsequence of the checksummed addresses of the curated contracts: each
    contract yields at most one holding, nothing is reordered, and nothing
    is reported for an address that is not in the list. *)
Theorem curated_holdings_follow_list_order
    (env : environment) (wallet : string) (include_batch : bool)
    (w w' : world) (hs : list dict) :
  get_curated_nfts_holdings env wallet include_batch w = (Ok hs, w') ->
  exists entries,
    curated_json env = Ok entries /\
    map holding_address hs `sublist_of` map entry_address entries /\
    (List.length hs <= List.length entries)%nat.
Proof.
  intros H. unfold get_curated_nfts_holdings, fetch_curated_contracts in H.
  step H as wa w0 Hwa. step H as entries w1 Hentries.
  apply curated_loop_order in H as (new & -> & Hsub).
  exists entries. split; [exact Hentries|]. cbn [app]. split; [exact Hsub|].
  apply sublist_length in Hsub. rewrite !length_map in Hsub. exact Hsub.
Qed.

Lemma curated_holdings_follow_list_order_witness :
  exists hs w',
    get_curated_nfts_holdings
      (sample_env_with
         [(plain_address, plain_metadata); (sample_address, sample_metadata);
          (sample_wallet, plain_metadata)]
         (Ok [0; 0; 0; 0; 0]%Z))
      sample_wallet true empty_world = (Ok hs, w') /\
    map holding_address hs
    = [Some (VStr "0xD1220A0cf47c7B9Be7A2E6BA89F429762e7b9aDb");
       Some (VStr "0xfB6916095ca1df60bB79Ce92cE3Ea74c37c5d359")] /\
    (List.length hs <= 3)%nat.
Proof.
  run (get_curated_nfts_holdings
         (sample_env_with
            [(plain_address, plain_metadata); (sample_address, sample_metadata);
             (sample_wallet, plain_metadata)]
            (Ok [0; 0; 0; 0; 0]%Z))
         sample_wallet true empty_world) as w' E.
  destruct (curated_holdings_follow_list_order _ _ _ _ _ _ E)
    as (entries & Hentries & _ & Hlen).
  cbn in Hentries. injection Hentries as <-.
  eexists. exists w'. split; [reflexivity|]. split; [reflexivity | exact Hlen].
Defined.

(** ** The aggregation, continued *)

Section Aggregation.

Variable env : environment.

(** A turn of the loop on a contract that is not [fetch_batch], once the
    contract is resolved. *)
Lemma curated_step_plain wallet include_batch a d holdings w ca k w1 :
  is_fetch_batch (VDict d) = false ->
  checksum_address a "eth" = Ok ca ->
  get_contract env ca "eth" "http" w = (Ok k, w1) ->
  curated_step env wallet include_batch (a, VDict d) holdings w =
  (send (EthBalanceOf k wallet) ;;;
   balance <- lift (node_balanceOf env k wallet) ;;
   if (0 <? balance)%Z then
     metadata <- lift (metadata_dict (VDict d)) ;;
     ret (holdings ++
          [make_holding metadata balance
             (default VNone (dict_get d "symbol"))
             (default VNone (dict_get d "name")) ca])%list
   else ret holdings)%prog w1.
Proof.
  intros Hb Hca Hk. unfold curated_step. cbn [fst snd].
  rewrite (bind_ok (lift (checksum_address a "eth")) _ w ca w)
    by (unfold lift; rewrite Hca; reflexivity).
  rewrite (bind_ok _ _ _ _ _ Hk).
  rewrite (bind_ok (lift (py_get (VDict d) "symbol")) _ w1 _ w1 eq_refl).
  rewrite (bind_ok (lift (py_get (VDict d) "name")) _ w1 _ w1 eq_refl).
  rewrite Hb. reflexivity.
Qed.

Lemma curated_step_flag wallet entry holdings :
  is_fetch_batch (snd entry) = false ->
  curated_step env wallet true entry holdings
  = curated_step env wallet false entry holdings.
Proof. intros H. unfold curated_step. rewrite H. reflexivity. Qed.

Lemma curated_loop_flag wallet entries :
  Forall (fun entry => is_fetch_batch (snd entry) = false) entries ->
  forall holdings w,
    curated_loop env wallet true entries holdings w
    = curated_loop env wallet false entries holdings w.
Proof.
  induction 1 as [|entry rest Hentry _ IH]; intros holdings w; [reflexivity|].
  cbn [curated_loop]. rewrite (curated_step_flag _ _ _ Hentry).
  unfold bind. destruct (curated_step env wallet false entry holdings w) as [[hs|e] w1];
    [apply IH | reflexivity].
Qed.

End Aggregation.

(** X17: a failing single balance query aborts the aggregation.  Unlike a
    batched lookup, when [balanceOf] raises for a contract that is not
    [fetch_batch], [get_curated_nfts_holdings]'s loop raises that exception
    at once: the holdings collected so far are lost and the remaining
    contracts are not processed. *)
Theorem plain_balance_failure_aborts
    (env : environment) (wallet a : string) (d : dict) (include_batch : bool)
    (holdings : list dict) (rest : list (string * value)) (w w1 : world)
    (ca : string) (k : contract) (e : exn) :
  is_fetch_batch (VDict d) = false ->
  checksum_address a "eth" = Ok ca ->
  get_contract env ca "eth" "http" w = (Ok k, w1) ->
  node_balanceOf env k wallet = Raise e ->
  let w2 := {| files := files w1;
               calls := (calls w1 ++ [EthBalanceOf k wallet])%list;
               stdout := stdout w1 |} in
  curated_step env wallet include_batch (a, VDict d) holdings w = (Raise e, w2) /\
  curated_loop env wallet include_batch ((a, VDict d) :: rest) holdings w
  = (Raise e, w2).
Proof.
  intros Hb Hca Hk Hbal w2.
  assert (Hstep : curated_step env wallet include_batch (a, VDict d) holdings w
                  = (Raise e, w2)).
  { rewrite (curated_step_plain env wallet include_batch a d holdings w ca k w1
               Hb Hca Hk).
    unfold bind, send, lift. rewrite Hbal. reflexivity. }
  split; [exact Hstep|].
  cbn [curated_loop]. apply bind_raise, Hstep.
Qed.

Lemma plain_balance_failure_aborts_witness :
  exists w2,
    curated_loop (sample_env_explorer (Ok (VStr "[]"))) sample_wallet true
      [(plain_address, plain_metadata); (sample_address, sample_metadata)]
      [[("symbol", VStr "kept so far")]] empty_world
    = (Raise (ExternalError "execution reverted"), w2).
Proof.
  set (env := sample_env_explorer (Ok (VStr "[]"))).
  run (get_contract env "0xD1220A0cf47c7B9Be7A2E6BA89F429762e7b9aDb" "eth" "http"
         empty_world) as w1 Hk.
  assert (Hca : checksum_address plain_address "eth"
                = Ok "0xD1220A0cf47c7B9Be7A2E6BA89F429762e7b9aDb")
    by (vm_compute; reflexivity).
  eexists.
  exact (proj2 (plain_balance_failure_aborts env sample_wallet plain_address
                  [("symbol", VStr "Y"); ("name", VStr "Bar");
                   ("fetch_batch", VBool false)] true
                  [[("symbol", VStr "kept so far")]]
                  [(sample_address, sample_metadata)] empty_world w1 _ _ _
                  eq_refl Hca Hk eq_refl)).
Defined.

(** X18: [include_batch] only matters for [fetch_batch] contracts.  When no
    contract of the curated list is tagged [fetch_batch: true],
    [get_curated_nfts_holdings] does the same with the flag set and unset. *)
Theorem include_batch_irrelevant_without_batch_contracts
    (env : environment) (wallet : string) (entries : list (string * value))
    (w : world) :
  curated_json env = Ok entries ->
  Forall (fun entry => is_fetch_batch (snd entry) = false) entries ->
  get_curated_nfts_holdings env wallet true w
  = get_curated_nfts_holdings env wallet false w.
Proof.
  intros Hentries Hall. unfold get_curated_nfts_holdings, fetch_curated_contracts.
  rewrite Hentries. unfold bind at 1 3, lift at 1 3.
  destruct (checksum_address wallet "eth") as [wa|e]; [|reflexivity].
  unfold bind, lift. apply curated_loop_flag, Hall.
Qed.

Lemma include_batch_irrelevant_without_batch_contracts_witness :
  get_curated_nfts_holdings
    (sample_env_with [(plain_address, plain_metadata)] (Ok [])) sample_wallet true
    empty_world
  = get_curated_nfts_holdings
      (sample_env_with [(plain_address, plain_metadata)] (Ok [])) sample_wallet
      false empty_world.
Proof.
  apply (include_batch_irrelevant_without_batch_contracts
           (sample_env_with [(plain_address, plain_metadata)] (Ok []))
           sample_wallet [(plain_address, plain_metadata)] empty_world eq_refl).
  repeat constructor.
Defined.

(** X19: the aggregation at its edges.  The wallet is checksummed before
    anything else: a wallet that is no address raises [ValueError] without
    reading the curated list or touching the world.  With a valid wallet, an
    empty curated list gives no holdings and no effect, and a curated list
    that cannot be read raises its exception. *)
Theorem get_curated_nfts_holdings_edges
    (env : environment) (wallet : string) (include_batch : bool) (w : world) :
  (valid_address_text wallet = false ->
   get_curated_nfts_holdings env wallet include_batch w = (Raise ValueError, w)) /\
  (valid_address_text wallet = true -> curated_json env = Ok [] ->
   get_curated_nfts_holdings env wallet include_batch w = (Ok [], w)) /\
  (valid_address_text wallet = true -> forall e, curated_json env = Raise e ->
   get_curated_nfts_holdings env wallet include_batch w = (Raise e, w)).
Proof.
  unfold get_curated_nfts_holdings, fetch_curated_contracts, bind, lift.
  rewrite checksum_address_eq, to_checksum_address_eq. cbn [known_chain String.eqb].
  change (known_chain "eth") with true. cbv iota.
  split; [|split].
  - intros ->. reflexivity.
  - intros -> ->. reflexivity.
  - intros -> e ->. reflexivity.
Qed.

Lemma get_curated_nfts_holdings_edges_witness :
  get_curated_nfts_holdings (sample_env (Ok [])) "vitalik.eth" true empty_world
  = (Raise ValueError, empty_world) /\
  get_curated_nfts_holdings (sample_env_with [] (Ok [])) sample_wallet true
    empty_world = (Ok [], empty_world).
Proof.
  split.
  - apply (proj1 (get_curated_nfts_holdings_edges (sample_env (Ok []))
                    "vitalik.eth" true empty_world)).
    reflexivity.
  - apply (proj1 (proj2 (get_curated_nfts_holdings_edges (sample_env_with [] (Ok []))
                           sample_wallet true empty_world))); reflexivity.
Defined.

(** ** Batched balances, continued *)

Lemma repeat_lookup {A} (x : A) n i : (i < n)%nat -> repeat x n !! i = Some x.
Proof.
  revert i. induction n as [|n IH]; intros i Hi; [lia|].
  destruct i as [|i]; [reflexivity|]. cbn. apply IH. lia.
Qed.

Lemma repeat_len {A} (x : A) n : List.length (repeat x n) = n.
Proof. induction n as [|n IH]; cbn; [|rewrite IH]; reflexivity. Qed.

Lemma ids_lookup n : forall s i,
  (i < n)%nat -> map Z.of_nat (seq s n) !! i = Some (Z.of_nat (s + i)).
Proof.
  induction n as [|n IH]; intros s i Hi; [lia|].
  destruct i as [|i]; cbn.
  - rewrite Nat.add_0_r. reflexivity.
  - rewrite IH by lia. do 2 f_equal. lia.
Qed.

Lemma count_ones_bounds l :
  (0 <= count_ones l <= count_nonzero l)%Z /\
  (count_nonzero l <= Z.of_nat (List.length l))%Z.
Proof.
  unfold count_ones, count_nonzero.
  induction l as [|b l IH]; cbn [List.filter List.length]; [lia|].
  destruct (b =? 1)%Z eqn:E1; destruct (b =? 0)%Z eqn:E0; cbn [negb List.length];
    lia.
Qed.

(** X20: a [fetch_batch] contract without a usable [total_supply] is passed
    over quietly.  When the metadata has no integer [total_supply], building
    the query fails inside the [try] block: no batch request is sent, the
    diagnostic is printed, and the turn of the loop leaves the holdings as
    they were. *)
Theorem batch_without_total_supply
    (env : environment) (wallet a : string) (md ts : value)
    (holdings : list dict) (w w1 : world) (ca : string) (k : contract) :
  is_fetch_batch md = true ->
  checksum_address a "eth" = Ok ca ->
  get_contract env ca "eth" "http" w = (Ok k, w1) ->
  py_get md "total_supply" = Ok ts ->
  (forall n, as_count ts <> Ok n) ->
  curated_step env wallet true (a, md) holdings w
  = (Ok holdings,
     {| files := files w1; calls := calls w1;
        stdout := (stdout w1 ++ [[Text "problems fetching contract balance: ";
                                  Shown (VStr ca); Text ". moving along..."]])%list |}).
Proof.
  intros Hb Hca Hk Hts Hn.
  destruct (curated_step_batch env wallet true a md holdings w ca k w1 Hb Hca Hk)
    as (symbol & name & ->).
  cbn [negb]. unfold batch_balance.
  unfold try_except, bind, lift, print, ret. rewrite Hts.
  destruct (as_count ts) as [n|e]; [destruct (Hn n eq_refl) | reflexivity].
Qed.

Lemma batch_without_total_supply_witness :
  exists w',
    curated_step (sample_env (Ok [1; 1]%Z)) sample_wallet true
      (sample_address, VDict [("fetch_batch", VBool true)]) [] empty_world
    = (Ok [], w') /\
    calls w' = [ExplorerGetAbi "eth" "0x5aAeb6053F3E94C9b9A09f33669435E7Ef1BeAed"].
Proof.
  set (env := sample_env (Ok [1; 1]%Z)).
  run (get_contract env "0x5aAeb6053F3E94C9b9A09f33669435E7Ef1BeAed" "eth" "http"
         empty_world) as w1 Hk.
  assert (Hca : checksum_address sample_address "eth"
                = Ok "0x5aAeb6053F3E94C9b9A09f33669435E7Ef1BeAed")
    by (vm_compute; reflexivity).
  assert (Hcalls : calls w1
                   = [ExplorerGetAbi "eth" "0x5aAeb6053F3E94C9b9A09f33669435E7Ef1BeAed"]).
  { match type of Hk with _ = (?r, _) => change w1 with (snd (r, w1)) end.
    rewrite <- Hk. vm_compute. reflexivity. }
  eexists. split.
  - apply (batch_without_total_supply env sample_wallet sample_address
             (VDict [("fetch_batch", VBool true)]) VNone [] empty_world w1 _ _
             eq_refl Hca Hk eq_refl).
    intros n. discriminate.
  - exact Hcalls.
Defined.

(** X21: the shape of the batched query.  With [total_supply = n] the one
    request of the lookup asks for [max n 0] positions: the owner at every
    position is the wallet and the id at position [i] is [i], so each id of
    [0 .. n - 1] is asked exactly once, and nothing is asked when [n <= 0]. *)
Theorem batch_request_shape
    (env : environment) (k : contract) (wallet : string) (md ts : value) (n : Z)
    (w w' : world) (r : result Z) :
  py_get md "total_supply" = Ok ts ->
  as_count ts = Ok n ->
  batch_balance env k wallet md w = (r, w') ->
  exists owners ids,
    calls w' = (calls w ++ [EthBalanceOfBatch k owners ids])%list /\
    List.length owners = Z.to_nat n /\
    List.length ids = Z.to_nat n /\
    forall i, (i < Z.to_nat n)%nat ->
      owners !! i = Some wallet /\ ids !! i = Some (Z.of_nat i).
Proof.
  intros Hts Hn H. unfold batch_balance, bind, lift, send, ret in H.
  rewrite Hts, Hn in H. cbv beta in H.
  exists (repeat wallet (Z.to_nat n)), (map Z.of_nat (seq 0 (Z.to_nat n))).
  split.
  - destruct (node_balanceOfBatch env k _ _); injection H as _ <-; reflexivity.
  - split; [apply repeat_len|]. split; [rewrite length_map, length_seq; reflexivity|].
    intros i Hi. split; [apply repeat_lookup, Hi | apply (ids_lookup _ 0 i Hi)].
Qed.

Lemma batch_request_shape_witness :
  exists owners ids,
    calls (snd (batch_balance (sample_env (Ok [])) 
                  {| contract_client := eth_http;
                     contract_address := sample_address;
                     contract_abi := VList [] |}
                  sample_wallet sample_metadata empty_world))
    = [EthBalanceOfBatch
         {| contract_client := eth_http; contract_address := sample_address;
            contract_abi := VList [] |} owners ids] /\
    List.length owners = 5%nat /\ ids !! 4%nat = Some 4%Z.
Proof.
  destruct (batch_balance (sample_env (Ok []))
              {| contract_client := eth_http; contract_address := sample_address;
                 contract_abi := VList [] |}
              sample_wallet sample_metadata empty_world) as [r w'] eqn:E.
  destruct (batch_request_shape (sample_env (Ok [])) _ sample_wallet
              sample_metadata (VInt 5) 5 empty_world w' r eq_refl eq_refl E)
    as (owners & ids & Hcalls & Hlen & _ & Hat).
  exists owners, ids. split; [exact Hcalls|]. split; [exact Hlen|].
  exact (proj2 (Hat 4%nat ltac:(cbn; lia))).
Defined.

(** X22: the batched balance undercounts at worst.  A balance the batched
    lookup returns is the number of ones in the node's answer: it is never
    negative, never more than the number of non-zero positions, and never
    more than the number of positions answered. *)
Theorem batch_balance_bounds
    (env : environment) (k : contract) (wallet : string) (md : value)
    (w w' : world) (b : Z) :
  batch_balance env k wallet md w = (Ok b, w') ->
  exists owners ids balances,
    node_balanceOfBatch env k owners ids = Ok balances /\
    b = count_ones balances /\
    (0 <= b <= count_nonzero balances)%Z /\
    (count_nonzero balances <= Z.of_nat (List.length balances))%Z.
Proof.
  intros H. unfold batch_balance in H.
  step H as ts w0 Hts. step H as n w1 Hn. step H as u w2 Hsend.
  step H as balances w3 Hbal. unfold ret in H. injection H as <- _.
  eexists. eexists. exists balances. split; [exact Hbal|]. split; [reflexivity|].
  apply count_ones_bounds.
Qed.

Lemma batch_balance_bounds_witness :
  exists b w',
    batch_balance (sample_env (Ok [3; 1; 0; 1; 7]%Z))
      {| contract_client := eth_http; contract_address := sample_address;
         contract_abi := VList [] |}
      sample_wallet sample_metadata empty_world = (Ok b, w') /\
    b = 2%Z /\ (0 <= b <= 4)%Z.
Proof.
  run (batch_balance (sample_env (Ok [3; 1; 0; 1; 7]%Z))
         {| contract_client := eth_http; contract_address := sample_address;
            contract_abi := VList [] |}
         sample_wallet sample_metadata empty_world) as w' E.
  destruct (batch_balance_bounds _ _ _ _ _ _ _ E)
    as (owners & ids & balances & Hbal & _ & Hb & _).
  cbn in Hbal. injection Hbal as <-.
  eexists. exists w'. split; [reflexivity|]. split; [reflexivity | exact Hb].
Defined.

(** ** Decoding a transaction, continued *)

(** X23: a contract-creation transaction cannot be decoded.  When the
    fetched transaction has no [to] address, [decode_contract_transaction]
    raises [TypeError] from checksumming [None]: the transaction request is
    the only one sent, and the cache is not touched. *)
Theorem decode_contract_creation_transaction
    (env : environment) (transaction_address chain : string) (c : client)
    (transaction : transaction) (w : world) :
  web3_client chain "http" = Ok c ->
  node_get_transaction env c transaction_address = Ok transaction ->
  tx_to transaction = None ->
  exists w',
    decode_contract_transaction env transaction_address chain w
    = (Raise TypeError, w') /\
    calls w' = (calls w ++ [EthGetTransaction c transaction_address])%list /\
    files w' = files w.
Proof.
  intros Hc Htx Hto. eexists. split.
  - unfold decode_contract_transaction, bind, lift, send, print, raise.
    rewrite Hc, Htx, Hto. reflexivity.
  - split; reflexivity.
Qed.

Lemma decode_contract_creation_transaction_witness :
  exists w',
    decode_contract_transaction (sample_env_explorer (Ok (VStr "[]"))) "0xabc"
      "polygon" empty_world = (Raise TypeError, w') /\
    calls w'
    = [EthGetTransaction {| client_chain := "polygon"; client_websocket := false |}
         "0xabc"].
Proof.
  destruct (decode_contract_creation_transaction
              (sample_env_explorer (Ok (VStr "[]"))) "0xabc" "polygon"
              {| client_chain := "polygon"; client_websocket := false |}
              {| tx_to := None; tx_input := "0x6080" |} empty_world
              eq_refl eq_refl eq_refl) as (w' & Hrun & Hcalls & _).
  exists w'. split; [exact Hrun | exact Hcalls].
Defined.

(** X24: the decoder's verdict is passed on.  Once the transaction is
    fetched and its target contract resolved, [decode_contract_transaction]
    returns what [decode_function_input] returns on the transaction's input;
    when that raises, the same exception is raised again after one line
    naming it has been printed. *)
Theorem decode_contract_transaction_outcome
    (env : environment) (transaction_address chain target : string) (c : client)
    (transaction : transaction) (k : contract) (w w1 : world) :
  web3_client chain "http" = Ok c ->
  node_get_transaction env c transaction_address = Ok transaction ->
  tx_to transaction = Some target ->
  get_contract env target "eth" "http"
    {| files := files w;
       calls := (calls w ++ [EthGetTransaction c transaction_address])%list;
       stdout := (stdout w ++
                  [[Text "decoding transaction. hash: ";
                    Shown (VStr transaction_address); Text " | contract: ";
                    Shown (VStr target)]])%list |} = (Ok k, w1) ->
  decode_contract_transaction env transaction_address chain w
  = match decode_function_input env k (tx_input transaction) with
    | Ok decoded => (Ok decoded, w1)
    | Raise e =>
        (Raise e,
         {| files := files w1; calls := calls w1;
            stdout := (stdout w1 ++
                       [[Text "exception decoding function: "; ShownExn e]])%list |})
    end.
Proof.
  intros Hc Htx Hto Hk.
  unfold decode_contract_transaction, bind, lift, send, print.
  cbv beta. rewrite Hc, Htx, Hto. cbn [value_of_text files calls stdout].
  rewrite Hk. unfold try_except, raise.
  destruct (decode_function_input env k (tx_input transaction)); reflexivity.
Qed.

Lemma decode_contract_transaction_outcome_witness :
  exists w1,
    decode_contract_transaction (sample_env (Ok [])) "0xabc" "polygon" empty_world
    = (Ok (VStr "transfer", VDict []), w1).
Proof.
  run (get_contract (sample_env (Ok [])) sample_address "eth" "http"
         {| files := files empty_world;
            calls := (calls empty_world
                      ++ [EthGetTransaction
                            {| client_chain := "polygon"; client_websocket := false |}
                            "0xabc"])%list;
            stdout := (stdout empty_world ++
                       [[Text "decoding transaction. hash: ";
                         Shown (VStr "0xabc"); Text " | contract: ";
                         Shown (VStr sample_address)]])%list |}) as w1 Hk.
  exists w1.
  exact (decode_contract_transaction_outcome (sample_env (Ok [])) "0xabc" "polygon"
           sample_address
           {| client_chain := "polygon"; client_websocket := false |}
           {| tx_to := Some sample_address; tx_input := "0xa9059cbb" |}
           _ empty_world w1 eq_refl eq_refl eq_refl Hk).
Defined.

(** ** Chains and names *)

(** X25: the name lookup never raises.  [get_ens_domain_for_address]
    returns the name the service gives and turns every failure into [None]:
    a failing lookup, and even an unknown chain, which makes every other
    helper raise [KeyError]. *)
Theorem get_ens_domain_for_address_never_raises
    (sv : services) (address chain : string) :
  (exists name, get_ens_domain_for_address sv address chain = Ok name) /\
  (known_chain chain = false ->
   get_ens_domain_for_address sv address chain = Ok None) /\
  (forall c e, web3_client chain "http" = Ok c -> ens_name sv c address = Raise e ->
   get_ens_domain_for_address sv address chain = Ok None) /\
  (forall c name, web3_client chain "http" = Ok c -> ens_name sv c address = Ok name ->
   get_ens_domain_for_address sv address chain = Ok name).
Proof.
  unfold get_ens_domain_for_address, on_client.
  split; [|split; [|split]].
  - destruct (web3_client chain "http") as [c|e]; [|eauto].
    destruct (ens_name sv c address); eauto.
  - intros Hk. unfold web3_client. cbn [is_empty negb andb String.eqb Ascii.eqb].
    rewrite Hk. destruct (_ : bool); reflexivity.
  - intros c e -> ->. reflexivity.
  - intros c name -> ->. reflexivity.
Qed.

Lemma get_ens_domain_for_address_never_raises_witness :
  get_ens_domain_for_address sample_services sample_wallet "bsc" = Ok None /\
  get_ens_domain_for_address sample_services "not an address" "eth" = Ok None /\
  get_ens_domain_for_address sample_services sample_wallet "eth"
  = Ok (Some "sample.eth").
Proof.
  pose proof (get_ens_domain_for_address_never_raises sample_services
                sample_wallet "bsc") as (_ & H1 & _).
  pose proof (get_ens_domain_for_address_never_raises sample_services
                "not an address" "eth") as (_ & _ & H2 & _).
  pose proof (get_ens_domain_for_address_never_raises sample_services
                sample_wallet "eth") as (_ & _ & _ & H3).
  split; [apply H1; reflexivity|].
  split; [apply (H2 eth_http (ExternalError "invalid address")); reflexivity|].
  apply (H3 eth_http); reflexivity.
Defined.

Lemma web3_client_unknown chain provider :
  known_chain chain = false -> web3_client chain provider = Raise (KeyError chain).
Proof.
  intros Hk. unfold web3_client. rewrite Hk. destruct (_ && _); reflexivity.
Qed.

(** X26: an unknown chain is refused before anything happens.  For a chain
    other than ["eth"] and ["polygon"], every helper that takes a chain
    raises [KeyError] for it without sending a request, printing, or
    touching the cache. *)
Theorem unknown_chain_raises_key_error
    (env : environment) (sv : services) (chain : string) :
  known_chain chain = false ->
  (forall a p w, get_contract env a chain p w = (Raise (KeyError chain), w)) /\
  (forall a w, get_contract_abi env a chain w = (Raise (KeyError chain), w)) /\
  (forall w, get_latest_block_number env chain w = (Raise (KeyError chain), w)) /\
  (forall h w, get_transaction env h chain w = (Raise (KeyError chain), w)) /\
  (forall h w,
     decode_contract_transaction env h chain w = (Raise (KeyError chain), w)) /\
  (forall a ev tok start eb topics w,
     get_events env a ev tok start eb chain topics w = (Raise (KeyError chain), w)) /\
  (forall a, get_balance sv a chain = Raise (KeyError chain)) /\
  get_current_gas_price sv chain = Raise (KeyError chain) /\
  (forall number, get_block sv number chain = Raise (KeyError chain)) /\
  (forall h, get_transaction_receipt sv h chain = Raise (KeyError chain)) /\
  (forall a, get_token_supply sv a chain = Raise (KeyError chain)).
Proof.
  intros Hk.
  pose proof (web3_client_unknown chain "http" Hk) as Hc.
  repeat split; intros.
  - unfold get_contract, bind, lift. rewrite checksum_address_eq, Hk. reflexivity.
  - unfold get_contract_abi. rewrite Hk. reflexivity.
  - unfold get_latest_block_number, bind, lift. rewrite Hc. reflexivity.
  - unfold get_transaction, bind, lift. rewrite Hc. reflexivity.
  - unfold decode_contract_transaction, bind, lift. rewrite Hc. reflexivity.
  - unfold get_events, get_events_request, bind, lift. rewrite Hc. reflexivity.
  - unfold get_balance, on_client. rewrite Hc. reflexivity.
  - unfold get_current_gas_price, on_client. rewrite Hc. reflexivity.
  - unfold get_block, on_client. rewrite Hc. reflexivity.
  - unfold get_transaction_receipt, on_client. rewrite Hc. reflexivity.
  - unfold get_token_supply. rewrite Hk. reflexivity.
Qed.

Lemma unknown_chain_raises_key_error_witness :
  get_events (sample_env (Ok [])) sample_address "Transfer" VNone 0
    (VStr "latest") "bsc" None empty_world = (Raise (KeyError "bsc"), empty_world) /\
  get_balance sample_services sample_wallet "bsc" = Raise (KeyError "bsc") /\
  get_token_supply sample_services sample_address "bsc" = Raise (KeyError "bsc").
Proof.
  pose proof (unknown_chain_raises_key_error (sample_env (Ok [])) sample_services
                "bsc" eq_refl)
    as (_ & _ & _ & _ & _ & He & Hb & _ & _ & _ & Ht).
  split; [apply He|]. split; [apply Hb | apply Ht].
Defined.

(** ** One cache file per address *)

Lemma append_inj_l p x y : p ++ x = p ++ y -> x = y.
Proof. induction p as [|c p IH]; cbn; intros H; [exact H|]. injection H as H. auto. Qed.

Lemma append_inj_r a : forall b s,
  String.length a = String.length b -> a ++ s = b ++ s -> a = b.
Proof.
  induction a as [|c a IH]; intros [|d b] s Hl H; try discriminate; [reflexivity|].
  cbn in Hl, H. injection Hl as Hl. injection H as -> H. f_equal. eauto.
Qed.

Lemma append_assoc (a b c : string) : (a ++ b) ++ c = a ++ (b ++ c).
Proof.
  induction a as [|x a IH]; [reflexivity|].
  change (String x ((a ++ b) ++ c) = String x (a ++ (b ++ c))).
  f_equal. exact IH.
Qed.

(** Joining a relative name to a directory prefixes the name with text that
    depends on the directory only. *)
Lemma path_join_relative r x :
  startswith "/" x = false ->
  path_join r x
  = (if is_empty r || String.eqb (str_drop (String.length r - 1) r) "/"
     then r else r ++ "/") ++ x.
Proof.
  intros Hx. unfold path_join. rewrite Hx.
  destruct (is_empty r || String.eqb (str_drop (String.length r - 1) r) "/");
    [reflexivity | symmetry; apply append_assoc].
Qed.

(** X27: one cache file per address.  The cache files of two checksummed
    addresses are the same file only when the addresses are the same text,
    that is, only when the inputs were the same address up to letter case
    and prefix. *)
Theorem abi_path_injective
    (env : environment) (a b chain ca cb : string) :
  checksum_address a chain = Ok ca ->
  checksum_address b chain = Ok cb ->
  abi_path env ca = abi_path env cb ->
  ca = cb /\ lower (remove_0x_prefix a) = lower (remove_0x_prefix b).
Proof.
  intros Ha Hb Hpath.
  pose proof (checksum_address_ok_eq _ _ _ Ha) as (_ & Hva & Eca).
  pose proof (checksum_address_ok_eq _ _ _ Hb) as (_ & Hvb & Ecb).
  destruct (checksum_digits_facts a Hva) as (Hla & _ & Hlena).
  destruct (checksum_digits_facts b Hvb) as (Hlb & _ & Hlenb).
  assert (Hlen : String.length ca = String.length cb).
  { rewrite <- (lower_length ca), <- (lower_length cb).
    rewrite Eca, Ecb, !lower_app, Hla, Hlb.
    change (S (S (String.length (lower (remove_0x_prefix a))))
            = S (S (String.length (lower (remove_0x_prefix b))))).
    rewrite Hlena, Hlenb. reflexivity. }
  assert (Heq : ca = cb).
  { unfold abi_path in Hpath.
    rewrite !path_join_relative in Hpath by (rewrite ?Eca, ?Ecb; reflexivity).
    apply append_inj_l in Hpath. exact (append_inj_r _ _ _ Hlen Hpath). }
  split; [exact Heq|].
  assert (Hlow : lower ca = lower cb) by (rewrite Heq; reflexivity).
  rewrite Eca, Ecb, !lower_app, Hla, Hlb in Hlow.
  exact (append_inj_l _ _ _ Hlow).
Qed.

Lemma abi_path_injective_witness :
  abi_path (sample_env (Ok [])) "0x5aAeb6053F3E94C9b9A09f33669435E7Ef1BeAed"
  <> abi_path (sample_env (Ok [])) "0xfB6916095ca1df60bB79Ce92cE3Ea74c37c5d359".
Proof.
  intros Hpath.
  assert (Ha : checksum_address sample_address "eth"
               = Ok "0x5aAeb6053F3E94C9b9A09f33669435E7Ef1BeAed")
    by (vm_compute; reflexivity).
  assert (Hb : checksum_address sample_wallet "eth"
               = Ok "0xfB6916095ca1df60bB79Ce92cE3Ea74c37c5d359")
    by (vm_compute; reflexivity).
  destruct (abi_path_injective (sample_env (Ok [])) _ _ _ _ _ Ha Hb Hpath) as [H _].
  discriminate H.
Defined.

(** ** Logs that do not decode *)

Lemma mapM_lift_raise {A B} (g : A -> result B) good bad rest e w :
  Forall (fun a => exists b, g a = Ok b) good ->
  g bad = Raise e ->
  mapM (fun a => lift (g a)) (good ++ bad :: rest)%list w = (Raise e, w).
Proof.
  intros Hgood Hbad. induction Hgood as [|a good [b Hb] _ IH]; cbn [app mapM].
  - unfold bind, lift. rewrite Hbad. reflexivity.
  - unfold bind at 1, lift at 1. rewrite Hb.
    unfold bind at 1. rewrite IH. reflexivity.
Qed.

(** X28: one log that does not decode fails the whole query.  When the
    node's answer contains a log that [get_event_data] rejects,
    [get_events] raises the exception of the first such log, after the log
    query has been made: no partial list of events is returned. *)
Theorem get_events_undecodable_log
    (env : environment) (address event_name : string) (token_id : value)
    (start_block : Z) (end_block : value) (chain : string)
    (topics : option (list value)) (w w1 : world) (request : filter_request)
    (built : value * value) (c : client) (good rest : list value) (bad : value)
    (e : exn) :
  get_events_request env address event_name token_id start_block end_block
    chain topics w = (Ok request, w1) ->
  construct_event_filter_params env request = Ok built ->
  web3_client chain "http" = Ok c ->
  node_get_logs env c (snd built) = Ok (good ++ bad :: rest)%list ->
  Forall (fun log => exists event,
            get_event_data env (fr_event_abi request) log = Ok event) good ->
  get_event_data env (fr_event_abi request) bad = Raise e ->
  exists w',
    get_events env address event_name token_id start_block end_block chain topics w
    = (Raise e, w') /\
    calls w' = (calls w1 ++ [EthGetLogs c (snd built)])%list.
Proof.
  intros Hreq Hbuilt Hc Hlogs Hgood Hbad. eexists. split.
  - unfold get_events. rewrite (bind_ok _ _ _ _ _ Hreq).
    unfold bind at 1 2 3 4 5, lift at 1 2 3, print, send.
    rewrite Hbuilt, Hc. cbv beta iota. rewrite Hlogs.
    apply (mapM_lift_raise _ good bad rest e _ Hgood Hbad).
  - reflexivity.
Qed.

Lemma get_events_undecodable_log_witness :
  exists w',
    get_events sample_env_logs sample_address "Transfer" VNone 0 (VStr "latest")
      "eth" None empty_world
    = (Raise (ExternalError "log topics do not match the event"), w').
Proof.
  run (get_events_request sample_env_logs sample_address "Transfer" VNone 0
         (VStr "latest") "eth" None empty_world) as w1 Hreq.
  destruct (get_events_undecodable_log sample_env_logs sample_address "Transfer"
              VNone 0 (VStr "latest") "eth" None empty_world w1 _
              (VList [], VDict [("fromBlock", VInt 0); ("toBlock", VStr "latest")])
              eth_http [VStr "first"] [VStr "third"] VNone
              (ExternalError "log topics do not match the event")
              Hreq eq_refl eq_refl eq_refl
              ltac:(repeat constructor; eexists; reflexivity) eq_refl)
    as (w' & Hrun & _).
  exists w'. exact Hrun.
Defined.
